(** * RSU sales tax optimizer: the allocation core of [app.py]

    A shallow embedding of [RSUOptimizer] (bracket tax calculator, tax
    component resolver, two-phase allocation, per-recommendation tax
    breakdown) together with the properties stated for it.

    Modelling conventions.
    - Python numbers are exact rationals ([Q], compared with [==]); NaN
      and negative infinity are outside the model.  [float('inf')] is the
      constructor [PInf].
    - [app.py] computes on binary64 floats, so a value of the program and
      the rational computed here can differ by rounding.  The properties
      stated for the program are therefore those that rounding cannot
      reach: comparisons, the branch taken, counts of units, and bounds
      that leave room for it, either a whole share or the allowance
      [rounding_slack].  The equalities and tight bounds between computed
      amounts that the proofs go through are lemmas about exact
      arithmetic only.
    - The module [Binary64] replays the same arithmetic on binary64
      floats; it shows where the program leaves the exact values.
    - A market-data lookup returns [option Q]: [None] is Python's [None].
    - Python exceptions are explicit: a computation returns [Ok v] or
      [Raise e]; [/] on floats raises [ZeroDivisionError] on a zero divisor.
    - A DataFrame is the list of its rows, in index order. *)

From Stdlib Require Import ZArith QArith Qround Lqa Lia List String Ascii.
From Stdlib Require Import DecimalString Sorted.
From Stdlib Require PrimFloat SpecFloat FloatOps.
From stdpp Require Import base list.
Import ListNotations.

#[local] Set Warnings "-inexact-float".

Local Open Scope Z_scope.
Local Open Scope Q_scope.

(** ** Numbers *)

(** A float that may be [float('inf')]. *)
Inductive xnum : Type :=
  | Fin (q : Q)
  | PInf.

Definition Qltb (a b : Q) : bool := negb (Qle_bool b a).

(** Python's [min(a, b)] and [max(a, b)]: the first argument wins ties. *)
Definition py_min (a b : Q) : Q := if Qltb b a then b else a.
Definition py_max (a b : Q) : Q := if Qltb a b then b else a.

(** [min(a, b)] where [b] may be infinite. *)
Definition py_min_x (a : Q) (b : xnum) : Q :=
  match b with
  | Fin b' => py_min a b'
  | PInf => a
  end.

(** [limit - previous_limit] for a finite [previous_limit]. *)
Definition xsub (limit : xnum) (p : Q) : xnum :=
  match limit with
  | Fin l => Fin (l - p)
  | PInf => PInf
  end.

(** [a < b] where either side may be infinite. *)
Definition xltb (a b : xnum) : bool :=
  match a, b with
  | Fin a', Fin b' => Qltb a' b'
  | Fin _, PInf => true
  | PInf, _ => false
  end.

Definition py_abs (a : Q) : Q := if Qltb a 0 then - a else a.

(** [int(x)]: truncation towards zero. *)
Definition py_int (x : Q) : Z := Z.quot (Qnum x) (Zpos (Qden x)).

(** [int(np.ceil(x))]. *)
Definition np_ceil_int (x : Q) : Z := Qceiling x.

(** ** Bracket tax calculator *)

Definition bracket : Type := (xnum * Q)%type.

Definition ISRAELI_TAX_BRACKETS_2025 : list bracket :=
  [ (Fin 84120, 0.10);
    (Fin 120720, 0.14);
    (Fin 193800, 0.20);
    (Fin 269280, 0.31);
    (Fin 560280, 0.35);
    (Fin 721560, 0.47);
    (PInf, 0.50) ].

Definition CAPITAL_GAINS_RATE : Q := 0.25.

(** The loop of [tax_on_income], from the state [(tax, previous_limit)].
    [income > previous_limit] is false once [previous_limit] is infinite. *)
Fixpoint tax_on_income_from (income : Q) (brackets : list bracket)
    (tax : Q) (previous_limit : xnum) : Q :=
  match brackets with
  | [] => tax
  | (limit, rate) :: rest =>
      match previous_limit with
      | Fin p =>
          if Qltb p income then
            let taxable_in_bracket := py_min_x (income - p) (xsub limit p) in
            tax_on_income_from income rest (tax + taxable_in_bracket * rate) limit
          else tax
      | PInf => tax
      end
  end.

Definition tax_on_income (income : Q) (brackets : list bracket) : Q :=
  tax_on_income_from income brackets 0 (Fin 0).

Definition calc_progressive_tax (brackets : list bracket)
    (income_start increment : Q) : Q :=
  if Qle_bool increment 0 then 0
  else
    let total_tax := tax_on_income (income_start + increment) brackets in
    let base_tax := tax_on_income income_start brackets in
    total_tax - base_tax.

(** The ordering invariant of a bracket table: limits strictly increasing,
    the last limit infinite, rates within [0,1] and non-decreasing. *)
Definition rate_in_range (rate : Q) : bool :=
  Qle_bool 0 rate && Qle_bool rate 1.

Fixpoint brackets_ordered (brackets : list bracket) : bool :=
  match brackets with
  | [] => false
  | [(limit, rate)] =>
      rate_in_range rate && match limit with PInf => true | Fin _ => false end
  | (limit, rate) :: (((next_limit, next_rate) :: _) as rest) =>
      rate_in_range rate && xltb limit next_limit
      && Qle_bool rate next_rate && brackets_ordered rest
  end.

(** ** Dates

    [pd.to_datetime] of a ['%Y-%m-%d'] string: a calendar day at midnight. *)

Record date : Type := mkDate { year : Z; month : Z; day : Z }.

Definition date_ltb (a b : date) : bool :=
  (year a <? year b)%Z
  || ((year a =? year b)%Z
      && ((month a <? month b)%Z
          || ((month a =? month b)%Z && (day a <? day b)%Z))).

(** [calendar.isleap] and [calendar.monthrange(year, month)[1]]. *)
Definition isleap (y : Z) : bool :=
  ((y mod 4 =? 0) && (negb (y mod 100 =? 0) || (y mod 400 =? 0)))%Z.

Definition monthrange (y m : Z) : Z :=
  (if m =? 2 then (if isleap y then 29 else 28)
   else if (m =? 4) || (m =? 6) || (m =? 9) || (m =? 11) then 30
   else 31)%Z.

(** [d + relativedelta(months=n)] for [n >= 0]: the constructor normalises
    [n] months into [n // 12] years and [n % 12] months; the sum keeps the
    day of the month, clipped to the length of the target month. *)
Definition add_months (d : date) (n : Z) : date :=
  let years := (n / 12)%Z in
  let months := (n mod 12)%Z in
  let y := (year d + years)%Z in
  let m := month d in
  let '(y, m) :=
    if (months =? 0)%Z then (y, m)
    else
      let m := (m + months)%Z in
      if (12 <? m)%Z then ((y + 1)%Z, (m - 12)%Z) else (y, m) in
  mkDate y m (Z.min (monthrange y m) (day d)).

(** ** Grants and resolved components *)

(** A row of the cleaned RSU table. *)
Record Grant : Type := mkGrant {
  company_name : string;
  stock_code : string;
  grant_date : date;
  vesting_date : date;
  number_of_units : Z;
  section_102 : string
}.

(** The dictionary returned by [get_tax_components]. *)
Record components : Type := mkComponents {
  ordinary_per_share : Q;
  capital_per_share : Q;
  sale_price_nis : Q;
  grant_price_nis : Q;
  sale_price_usd : Q;
  grant_price_usd : Q;
  note : string
}.

(** Truthiness of a looked-up value: [None] and zero are both falsy. *)
Definition truthy (v : option Q) : bool :=
  match v with
  | Some q => negb (Qeq_bool q 0)
  | None => false
  end.

Definition py_all (vs : list (option Q)) : bool := forallb truthy vs.

Definition CAPITAL_GAINS_ROUTE : string := "Capital Gains Route".

Definition NOTE_DISQUALIFIED : string :=
  "§102 Disqualified (sold < 24m): Full amount is ordinary income.".
Definition NOTE_CAPITAL_GAINS : string := "§102 Capital Gains Route".
Definition NOTE_UNDERWATER : string :=
  "§102 Underwater: Ordinary income only, no capital loss.".
Definition NOTE_NON_102 : string :=
  "Non-§102: Capital gain/loss from vest date.".

Section Resolver.

(** The market-data collaborators: [get_stock_price(ticker, date,
    use_30d_avg)] and [get_fx_rate(date)]. *)
Variable get_stock_price : string -> date -> bool -> option Q.
Variable get_fx_rate : date -> option Q.

Definition get_tax_components (grant : Grant) (sale_date : date)
    : option components :=
  let o_sale_price_usd := get_stock_price (stock_code grant) sale_date false in
  let o_sale_fx := get_fx_rate sale_date in
  let o_grant_price_usd :=
    get_stock_price (stock_code grant) (grant_date grant) true in
  let o_grant_fx := get_fx_rate (grant_date grant) in
  if negb (py_all [o_sale_price_usd; o_sale_fx; o_grant_price_usd; o_grant_fx])
  then None
  else
    match o_sale_price_usd, o_sale_fx, o_grant_price_usd, o_grant_fx with
    | Some sale_price_usd, Some sale_fx, Some grant_price_usd, Some grant_fx =>
        let sale_nis := sale_price_usd * sale_fx in
        let grant_price_nis := grant_price_usd * grant_fx in
        let ret ordinary capital nt :=
          Some (mkComponents ordinary capital sale_nis grant_price_nis
                  sale_price_usd grant_price_usd nt) in
        if String.eqb (section_102 grant) CAPITAL_GAINS_ROUTE then
          let base_price_usd := grant_price_usd in
          let base_fx := grant_fx in
          if negb (py_all [Some base_price_usd; Some base_fx]) then None
          else
            let base_102_nis := base_price_usd * base_fx in
            if date_ltb sale_date (add_months (grant_date grant) 24) then
              ret sale_nis 0 NOTE_DISQUALIFIED
            else
              ret (py_min base_102_nis sale_nis)
                  (py_max 0 (sale_nis - base_102_nis))
                  (if Qltb sale_nis base_102_nis
                   then NOTE_UNDERWATER else NOTE_CAPITAL_GAINS)
        else
          let o_vest_price_usd :=
            get_stock_price (stock_code grant) (vesting_date grant) false in
          let o_vest_fx := get_fx_rate (vesting_date grant) in
          if negb (py_all [o_vest_price_usd; o_vest_fx]) then None
          else
            match o_vest_price_usd, o_vest_fx with
            | Some vest_price_usd, Some vest_fx =>
                let vest_nis := vest_price_usd * vest_fx in
                ret 0 (sale_nis - vest_nis) NOTE_NON_102
            | _, _ => None
            end
    | _, _, _, _ => None
    end.

End Resolver.

(** ** Exceptions *)

Inductive exn : Type :=
  | ZeroDivisionError.

Inductive result (A : Type) : Type :=
  | Ok (a : A)
  | Raise (e : exn).

Arguments Ok {A} a.
Arguments Raise {A} e.

Definition bind {A B : Type} (c : result A) (k : A -> result B) : result B :=
  match c with
  | Ok a => k a
  | Raise e => Raise e
  end.

Notation "'letr' x ':=' c 'in' k" := (bind c (fun x => k))
  (at level 10, x pattern, c at level 200, k at level 200).

(** Python's [a / b] on floats. *)
Definition py_div (a b : Q) : result Q :=
  if Qeq_bool b 0 then Raise ZeroDivisionError else Ok (a / b).

(** ** Allocation optimizer *)

(** An entry of [grants_to_process]: the grant row merged with its
    components and its efficiency. *)
Record resolved : Type := mkResolved {
  r_grant : Grant;
  r_components : components;
  efficiency : xnum
}.

(** An entry of [recommendations]: a resolved grant with [units_to_sell]. *)
Record recommendation : Type := mkRecommendation {
  rec_entry : resolved;
  units_to_sell : Z
}.

Definition ord_of (g : resolved) : Q := ordinary_per_share (r_components g).
Definition cap_of (g : resolved) : Q := capital_per_share (r_components g).
Definition units_of (g : resolved) : Z := number_of_units (r_grant g).

(** [income_room], clamped at lines 176-179. *)
Definition income_room (target_bracket_limit current_income : Q) : Q :=
  let income_room := target_bracket_limit - current_income in
  if Qle_bool income_room 0 then 0 else income_room.

Definition compute_efficiency (c : components) : result xnum :=
  if Qltb 0 (ordinary_per_share c) && Qltb 0 (capital_per_share c) then
    letr e := py_div (capital_per_share c) (ordinary_per_share c) in Ok (Fin e)
  else if Qltb 0 (capital_per_share c) then Ok PInf
  else Ok (Fin 0).

(** [sorted(l, key=efficiency, reverse=True)]: descending and stable. *)
Fixpoint insert_desc (x : resolved) (l : list resolved) : list resolved :=
  match l with
  | [] => [x]
  | y :: l' =>
      if xltb (efficiency x) (efficiency y) then y :: insert_desc x l'
      else x :: l
  end.

Definition sorted_desc (l : list resolved) : list resolved :=
  fold_right insert_desc [] l.

Definition is_s102_gain (g : resolved) : bool :=
  String.prefix "§102" (note (r_components g))
  && Qle_bool 0 (cap_of g) && Qltb 0 (ord_of g).

Definition is_cap_loss (g : resolved) : bool := Qltb (cap_of g) 0.

(** The phase-1 loop from the state [running_income]; returns the
    recommendations it appends and the final [running_income]. *)
Fixpoint gains_phase (target_bracket_limit : Q) (s102_gains : list resolved)
    (running_income : Q) : result (list recommendation * Q) :=
  match s102_gains with
  | [] => Ok ([], running_income)
  | grant :: rest =>
      let ord_per_share := ord_of grant in
      if Qle_bool ord_per_share 0 then
        gains_phase target_bracket_limit rest running_income
      else
        let room_for_ord_income := target_bracket_limit - running_income in
        if Qle_bool room_for_ord_income 0 then Ok ([], running_income)
        else
          letr q := py_div room_for_ord_income ord_per_share in
          let units := Z.min (units_of grant) (py_int q) in
          if (units <=? 0)%Z then
            gains_phase target_bracket_limit rest running_income
          else
            letr (recs, final) :=
              gains_phase target_bracket_limit rest
                (running_income + inject_Z units * ord_per_share) in
            Ok (mkRecommendation grant units :: recs, final)
  end.

(** [sum(rec["capital_per_share"] * rec["units_to_sell"] for rec in ...)]. *)
Definition total_cap_gain (recs : list recommendation) : Q :=
  fold_left
    (fun acc rec => acc + cap_of (rec_entry rec) * inject_Z (units_to_sell rec))
    recs 0.

(** The phase-2 loop from the state [running_loss_sold]. *)
Fixpoint loss_phase (total_cap_gain_to_offset : Q) (cap_losses : list resolved)
    (running_loss_sold : Q) : result (list recommendation * Q) :=
  match cap_losses with
  | [] => Ok ([], running_loss_sold)
  | grant :: rest =>
      if Qle_bool total_cap_gain_to_offset running_loss_sold then
        Ok ([], running_loss_sold)
      else
        let loss_per_share := py_abs (cap_of grant) in
        if Qle_bool loss_per_share 0 then
          loss_phase total_cap_gain_to_offset rest running_loss_sold
        else
          let needed_loss := total_cap_gain_to_offset - running_loss_sold in
          letr q := py_div needed_loss loss_per_share in
          let units := Z.min (units_of grant) (np_ceil_int q) in
          if (units <=? 0)%Z then
            loss_phase total_cap_gain_to_offset rest running_loss_sold
          else
            letr (recs, final) :=
              loss_phase total_cap_gain_to_offset rest
                (running_loss_sold + inject_Z units * loss_per_share) in
            Ok (mkRecommendation grant units :: recs, final)
  end.

(** ** Result rows *)

(** The figures computed for one recommendation in the final loop. *)
Record breakdown : Type := mkBreakdown {
  b_rec : recommendation;
  b_units : Z;
  ord_total : Q;
  cap_total : Q;
  income_tax : Q;
  cgt : Q;
  total_tax : Q;
  net_proceeds : Q
}.

(** The final loop from the state [running_income_for_tax]. *)
Fixpoint tax_breakdowns (recommendations : list recommendation)
    (running_income_for_tax : Q) : list breakdown :=
  match recommendations with
  | [] => []
  | rec :: rest =>
      let c := r_components (rec_entry rec) in
      let units := units_to_sell rec in
      let ord_total := ordinary_per_share c * inject_Z units in
      let cap_total := capital_per_share c * inject_Z units in
      let income_tax :=
        calc_progressive_tax ISRAELI_TAX_BRACKETS_2025
          running_income_for_tax ord_total in
      let cgt := py_max 0 cap_total * CAPITAL_GAINS_RATE in
      let total_tax := income_tax + cgt in
      let net_proceeds := sale_price_nis c * inject_Z units - total_tax in
      mkBreakdown rec units ord_total cap_total income_tax cgt total_tax
        net_proceeds
      :: tax_breakdowns rest (running_income_for_tax + ord_total)
  end.

(** Rounding to the nearest integer, ties to even, as the ['.2f'] format
    does on the scaled value. *)
Definition round_half_even (x : Q) : Z :=
  let f := Qfloor x in
  match Qcompare (x - inject_Z f) (1 # 2) with
  | Lt => f
  | Gt => (f + 1)%Z
  | Eq => if Z.even f then f else (f + 1)%Z
  end.

Definition digits (n : Z) : list ascii :=
  list_ascii_of_string (DecimalString.NilZero.string_of_uint (N.to_uint (Z.to_N n))).

(** Thousands separators, on the reversed digits; [k] digits remain in the
    current group. *)
Fixpoint commas_rev (l : list ascii) (k : nat) : list ascii :=
  match l with
  | [] => []
  | c :: l' =>
      match k with
      | O => ","%char :: c :: commas_rev l' 2
      | S k' => c :: commas_rev l' k'
      end
  end.

Definition two_digits (n : Z) : list ascii :=
  if (n <? 10)%Z then "0"%char :: digits n else digits n.

(** [f"{x:.2f}"] ([grouping = false]) and [f"{x:,.2f}"] ([grouping = true]). *)
Definition format_2f (grouping : bool) (x : Q) : string :=
  let cents := round_half_even (py_abs x * 100) in
  let int_part := digits (cents / 100)%Z in
  let int_part :=
    if grouping then List.rev (commas_rev (List.rev int_part) 3) else int_part in
  string_of_list_ascii
    ((if Qltb x 0 then ["-"%char] else [])
       ++ int_part ++ "."%char :: two_digits (cents mod 100)%Z).

(** A row of the returned DataFrame, one field per column. *)
Record result_row : Type := mkRow {
  Company : string;
  Grant_Date : date;
  Grant_Price_NIS_sh : string;
  Units_to_Sell : Z;
  Sale_Price_NIS_sh : string;
  Ordinary_NIS_sh : string;
  Capital_Gain_NIS_sh : string;
  Ordinary_Total_NIS : string;
  Capital_Gain_Total_NIS : string;
  Income_Tax_NIS : string;
  Capital_Gains_Tax_NIS : string;
  Total_Tax_NIS : string;
  Net_Proceeds_NIS : string;
  Note : string
}.

Definition final_row (b : breakdown) : result_row :=
  let g := r_grant (rec_entry (b_rec b)) in
  let c := r_components (rec_entry (b_rec b)) in
  {| Company := company_name g;
     Grant_Date := grant_date g;
     Grant_Price_NIS_sh :=
       format_2f false (grant_price_nis c) ++ " ("
         ++ format_2f false (grant_price_usd c) ++ "$)";
     Units_to_Sell := b_units b;
     Sale_Price_NIS_sh :=
       format_2f false (sale_price_nis c) ++ " ("
         ++ format_2f false (sale_price_usd c) ++ "$)";
     Ordinary_NIS_sh := format_2f false (ordinary_per_share c);
     Capital_Gain_NIS_sh := format_2f false (capital_per_share c);
     Ordinary_Total_NIS := format_2f true (ord_total b);
     Capital_Gain_Total_NIS := format_2f true (cap_total b);
     Income_Tax_NIS := format_2f true (income_tax b);
     Capital_Gains_Tax_NIS := format_2f true (cgt b);
     Total_Tax_NIS := format_2f true (total_tax b);
     Net_Proceeds_NIS := format_2f true (net_proceeds b);
     Note := note c |}.

(** ** The optimizer *)

Section Optimizer.

(** The market-data collaborators and [datetime.now()], the sale date. *)
Variable get_stock_price : string -> date -> bool -> option Q.
Variable get_fx_rate : date -> option Q.
Variable today : date.

(** The first loop: [grants_to_process]. *)
Fixpoint grants_to_process (rsu_data : list Grant) : result (list resolved) :=
  match rsu_data with
  | [] => Ok []
  | grant :: rest =>
      match get_tax_components get_stock_price get_fx_rate grant today with
      | None => grants_to_process rest
      | Some components =>
          letr efficiency := compute_efficiency components in
          letr processed := grants_to_process rest in
          Ok (mkResolved grant components efficiency :: processed)
      end
  end.

Definition s102_gains (processed : list resolved) : list resolved :=
  sorted_desc (List.filter is_s102_gain processed).

Definition cap_losses (processed : list resolved) : list resolved :=
  List.filter is_cap_loss processed.

(** Both phases: the recommendations appended by the first loop and those
    appended by the second. *)
Definition allocate (rsu_data : list Grant)
    (current_income target_bracket_limit : Q)
    : result (list recommendation * list recommendation) :=
  letr processed := grants_to_process rsu_data in
  letr (recs1, _) :=
    gains_phase target_bracket_limit (s102_gains processed) current_income in
  let total_cap_gain_to_offset := total_cap_gain recs1 in
  letr (recs2, _) :=
    loss_phase total_cap_gain_to_offset (cap_losses processed) 0 in
  Ok (recs1, recs2).

(** [recommendations] after both phases. *)
Definition recommendations (rsu_data : list Grant)
    (current_income target_bracket_limit : Q) : result (list recommendation) :=
  letr (recs1, recs2) :=
    allocate rsu_data current_income target_bracket_limit in
  Ok (recs1 ++ recs2).

(** Either phase alone. *)
Definition phase1 (rsu_data : list Grant)
    (current_income target_bracket_limit : Q) : result (list recommendation) :=
  letr (recs1, _) :=
    allocate rsu_data current_income target_bracket_limit in
  Ok recs1.

Definition phase2 (rsu_data : list Grant)
    (current_income target_bracket_limit : Q) : result (list recommendation) :=
  letr (_, recs2) :=
    allocate rsu_data current_income target_bracket_limit in
  Ok recs2.

Definition sale_plan (rsu_data : list Grant)
    (current_income target_bracket_limit : Q) : result (list breakdown) :=
  letr recs := recommendations rsu_data current_income target_bracket_limit in
  Ok (tax_breakdowns recs current_income).

Definition optimize_rsu_sales (rsu_data : list Grant)
    (current_income target_bracket_limit : Q) : result (list result_row) :=
  let income_room := income_room target_bracket_limit current_income in
  letr plan := sale_plan rsu_data current_income target_bracket_limit in
  Ok (List.map final_row plan).

End Optimizer.

(** ** Accumulators, as functions of the recommendations made so far *)

Definition grant_of (rec : recommendation) : Grant := r_grant (rec_entry rec).

(** [running_income] after the recommendations [recs], from [start]. *)
Definition running_income_after (start : Q) (recs : list recommendation) : Q :=
  fold_left
    (fun r rec => r + inject_Z (units_to_sell rec) * ord_of (rec_entry rec))
    recs start.

(** [running_loss_sold] after the recommendations [recs], from [start]. *)
Definition running_loss_after (start : Q) (recs : list recommendation) : Q :=
  fold_left
    (fun r rec =>
       r + inject_Z (units_to_sell rec) * py_abs (cap_of (rec_entry rec)))
    recs start.

(** ** Vocabulary of the resolver's properties *)

(** A looked-up value is available when it is neither [None] nor zero. *)
Definition available (v : option Q) (q : Q) : Prop := v = Some q /\ ~ q == 0.

(** A looked-up value that is a number equal to zero. *)
Definition is_zero (v : option Q) : Prop := exists q, v = Some q /\ q == 0.

(** The same value with zero replaced by a failed look-up. *)
Definition zero_as_missing (v : option Q) : option Q :=
  if truthy v then v else None.

(** The values [get_tax_components] needs for a grant: sale price and FX
    rate, grant-date price and FX rate and, off the Capital Gains Route,
    vesting-date price and FX rate. *)
Definition required_values
    (get_stock_price : string -> date -> bool -> option Q)
    (get_fx_rate : date -> option Q) (grant : Grant) (sale_date : date)
    : list (option Q) :=
  [ get_stock_price (stock_code grant) sale_date false;
    get_fx_rate sale_date;
    get_stock_price (stock_code grant) (grant_date grant) true;
    get_fx_rate (grant_date grant) ]
  ++ (if String.eqb (section_102 grant) CAPITAL_GAINS_ROUTE then []
      else [ get_stock_price (stock_code grant) (vesting_date grant) false;
             get_fx_rate (vesting_date grant) ]).

(** ** Vocabulary of the phases' properties *)

(** What holds in exact arithmetic when phase 1 appends [rec] with
    [running_income = before]: there is room, the units are the
    floor-division choice capped by the grant's unit count, and the new
    running income does not pass the ceiling. *)
Definition gains_step (target_bracket_limit before : Q)
    (rec : recommendation) : Prop :=
  let grant := rec_entry rec in
  let room := target_bracket_limit - before in
  (0 < units_to_sell rec <= units_of grant)%Z
  /\ 0 < ord_of grant
  /\ 0 < room
  /\ units_to_sell rec
     = Z.min (units_of grant) (Qfloor (room / ord_of grant))
  /\ before + inject_Z (units_to_sell rec) * ord_of grant
     <= target_bracket_limit.

(** What holds in exact arithmetic when phase 2 appends [rec] with
    [running_loss_sold = before]: the target is not reached yet, the grant
    is a loss, the units are the ceiling-division choice capped by the
    grant's unit count, and the new cumulative loss passes the target by
    less than one share's loss. *)
Definition loss_step (total_cap_gain_to_offset before : Q)
    (rec : recommendation) : Prop :=
  let grant := rec_entry rec in
  let loss_per_share := py_abs (cap_of grant) in
  let needed_loss := total_cap_gain_to_offset - before in
  (0 < units_to_sell rec <= units_of grant)%Z
  /\ cap_of grant < 0
  /\ before < total_cap_gain_to_offset
  /\ units_to_sell rec
     = Z.min (units_of grant) (Qceiling (needed_loss / loss_per_share))
  /\ before + inject_Z (units_to_sell rec) * loss_per_share
     < total_cap_gain_to_offset + loss_per_share.

(** ** Units recommended per grant *)

Definition date_eq_dec (a b : date) : {a = b} + {a <> b}.
Proof.
  decide equality; apply Z.eq_dec.
Defined.

Definition Grant_eq_dec (a b : Grant) : {a = b} + {a <> b}.
Proof.
  decide equality;
    try apply string_dec; try apply Z.eq_dec; apply date_eq_dec.
Defined.

(** The sum of [units_to_sell] over the recommendations for [grant]. *)
Fixpoint units_recommended (grant : Grant) (recs : list recommendation) : Z :=
  match recs with
  | [] => 0
  | rec :: rest =>
      ((if Grant_eq_dec (grant_of rec) grant then units_to_sell rec else 0)
       + units_recommended grant rest)%Z
  end.

(** ** Scenarios of [test_rsu_optimizer.py]

    The tests replace the two collaborators by mocks that answer the sale,
    grant-date and vesting-date look-ups with fixed values. *)

Definition mock_get_stock_price (sale grant_avg vest : option Q)
    (vesting : date) : string -> date -> bool -> option Q :=
  fun _ d use_30d_avg =>
    if use_30d_avg then grant_avg
    else if date_eq_dec d vesting then vest else sale.

Definition mock_get_fx_rate (sale grant vest : option Q)
    (granted vesting : date) : date -> option Q :=
  fun d =>
    if date_eq_dec d granted then grant
    else if date_eq_dec d vesting then vest else sale.

Definition test_grant (route : string) : Grant :=
  mkGrant "TestCorp" "TC" (mkDate 2022 1 1) (mkDate 2023 1 1) 100 route.

Definition test_today : date := mkDate 2025 6 1.

(** [test_section_102_capital_gain]: sale 150 USD at 3.8, grant 50 USD at the
    rate 3.5. *)
Definition gain_price : string -> date -> bool -> option Q :=
  mock_get_stock_price (Some 150) (Some 50) None (mkDate 2023 1 1).
Definition gain_fx : date -> option Q :=
  mock_get_fx_rate (Some 3.8) (Some 3.5) None (mkDate 2022 1 1) (mkDate 2023 1 1).

(** [test_negative_capital_gain]: sale 40 USD at 3.8, grant 50 USD at 3.5. *)
Definition underwater_price : string -> date -> bool -> option Q :=
  mock_get_stock_price (Some 40) (Some 50) None (mkDate 2023 1 1).

(** [test_non_section_102]: as the first scenario, vesting 100 USD at 3.6. *)
Definition vest_price : string -> date -> bool -> option Q :=
  mock_get_stock_price (Some 150) (Some 50) (Some 100) (mkDate 2023 1 1).
Definition vest_fx : date -> option Q :=
  mock_get_fx_rate (Some 3.8) (Some 3.5) (Some 3.6)
    (mkDate 2022 1 1) (mkDate 2023 1 1).

(** A worthless stock: the sale price is the number 0. *)
Definition zero_price : string -> date -> bool -> option Q :=
  mock_get_stock_price (Some 0) (Some 50) None (mkDate 2023 1 1).

(** An underwater Capital Gains Route grant next to a grant off the route
    that sells below its vesting value. *)
Definition loss_price : string -> date -> bool -> option Q :=
  mock_get_stock_price (Some 40) (Some 50) (Some 100) (mkDate 2023 1 1).
Definition mixed_grants : list Grant :=
  [test_grant "Capital Gains Route"; test_grant "Not Capital Gains Route"].

(** A gain on the route next to a loss off the route. *)
Definition harvest_price : string -> date -> bool -> option Q :=
  mock_get_stock_price (Some 150) (Some 50) (Some 200) (mkDate 2023 1 1).

(** The same gain next to a larger grant off the route: more units at a
    loss than the gain needs. *)
Definition harvest_grants : list Grant :=
  [ test_grant "Capital Gains Route";
    mkGrant "TestCorp" "TC" (mkDate 2022 1 1) (mkDate 2023 1 1) 1000
      "Not Capital Gains Route" ].

(** ** Vocabulary of the bracket calculator's properties *)

(** Limits strictly increasing above [p], the last one infinite. *)
Fixpoint limits_increasing_from (p : Q) (brackets : list bracket) : bool :=
  match brackets with
  | [] => false
  | (PInf, _) :: rest => match rest with [] => true | _ :: _ => false end
  | (Fin l, _) :: rest => Qltb p l && limits_increasing_from l rest
  end.

(** Every rate of the table lies in [[lo, hi]]. *)
Definition rates_between (lo hi : Q) (brackets : list bracket) : bool :=
  forallb (fun b : bracket => Qle_bool lo (snd b) && Qle_bool (snd b) hi)
    brackets.

(** The lower edge of the bracket that follows [pre], in a table whose
    first bracket starts at [p]. *)
Fixpoint lower_edge (p : Q) (pre : list bracket) : xnum :=
  match pre with
  | [] => Fin p
  | (Fin l, _) :: rest => lower_edge l rest
  | (PInf, _) :: _ => PInf
  end.

(** [a <= b] where [b] may be infinite. *)
Definition xle (a : Q) (b : xnum) : Prop :=
  match b with
  | Fin b' => a <= b'
  | PInf => True
  end.

(** ** Vocabulary of the optimizer's further properties *)

(** [a]'s efficiency is not below [b]'s. *)
Definition not_below (a b : resolved) : Prop :=
  xltb (efficiency a) (efficiency b) = false.

(** The efficiency of [g] equals the key [k]. *)
Definition same_efficiency (k : xnum) (g : resolved) : bool :=
  negb (xltb (efficiency g) k) && negb (xltb k (efficiency g)).

(** [running_income_for_tax] after the rows of [recs], from [start]. *)
Definition running_income_for_tax_after (start : Q)
    (recs : list recommendation) : Q :=
  fold_left
    (fun r rec =>
       r + ordinary_per_share (r_components (rec_entry rec))
           * inject_Z (units_to_sell rec))
    recs start.

Fixpoint Qsum (l : list Q) : Q :=
  match l with
  | [] => 0
  | x :: rest => x + Qsum rest
  end.

(** [sale_price_nis * units], the proceeds of a row before tax. *)
Definition gross_proceeds (b : breakdown) : Q :=
  sale_price_nis (r_components (rec_entry (b_rec b))) * inject_Z (b_units b).

(** An entry of [grants_to_process] as the first loop builds it: the
    components are those the resolver returns for the grant, the efficiency
    the one computed from them. *)
Definition well_resolved
    (get_stock_price : string -> date -> bool -> option Q)
    (get_fx_rate : date -> option Q) (today : date) (g : resolved) : Prop :=
  get_tax_components get_stock_price get_fx_rate (r_grant g) today
  = Some (r_components g)
  /\ compute_efficiency (r_components g) = Ok (efficiency g).

(** A loss candidate that the second loop can sell: a positive unit count
    and a non-zero loss per share. *)
Definition sellable_loss (g : resolved) : bool :=
  (0 <? units_of g)%Z && Qltb 0 (py_abs (cap_of g)).

(** [rec] sells every unit of its grant. *)
Definition sold_in_full (rec : recommendation) : Prop :=
  units_to_sell rec = units_of (rec_entry rec).

(** ** Column validation

    [validate_csv_data] looks at [df.columns] only: the table is the list
    of its column names. *)

Definition required_columns : list string :=
  ["Company name"; "Stock Code"; "Grant date"; "Vesting date";
   "Number of units"]%string.

(** [col in columns]. *)
Definition has_column (columns : list string) (col : string) : bool :=
  existsb (String.eqb col) columns.

Definition missing_columns (columns : list string) : list string :=
  List.filter (fun col => negb (has_column columns col)) required_columns.

Definition validate_csv_data (columns : list string) : list string :=
  let errors := [] in
  let missing := missing_columns columns in
  match missing with
  | [] => errors
  | _ :: _ =>
      errors
      ++ [("Missing required columns: " ++ String.concat ", " missing)%string]
  end.

(** A grant made on a day for which the mocked FX rate is missing. *)
Definition unpriced_grant : Grant :=
  mkGrant "OtherCorp" "OC" (mkDate 2023 1 1) (mkDate 2024 1 1) 50
    "Capital Gains Route".

(** ** Allowance for rounding

    A billionth of one plus the size of the amounts involved.  A binary64
    operation is off by at most one part in [2^53] of its result, and the
    amounts compared below come out of a few such operations per bracket
    and per row on amounts of that size, so the allowance exceeds the
    rounding of the program by several orders of magnitude.  In exact
    arithmetic it is not needed: the lemmas about exact arithmetic give
    the bounds without it. *)
Definition rounding_slack (magnitude : Q) : Q :=
  (1 # 1000000000) * (1 + py_abs magnitude).

(** ** The arithmetic in binary64

    The arithmetic of the bracket calculator, of the resolver and of the
    optimizer's three loops, on Rocq's primitive floats: binary64 with
    rounding to nearest, ties to even, as Python's [float].  Integers
    enter the arithmetic as the nearest float ([of_int]).  A grant is
    given by the market values the resolver looked up for it, all
    available, and by its unit count. *)

Module Binary64.

Import PrimFloat SpecFloat FloatOps.
Local Open Scope float_scope.

(** Python's [min(a, b)] and [max(a, b)]: the first argument wins ties. *)
Definition py_min (a b : float) : float := if b <? a then b else a.
Definition py_max (a b : float) : float := if a <? b then b else a.

Inductive exn : Type :=
  | ZeroDivisionError
  | OverflowError
  | ValueError.

Inductive result (A : Type) : Type :=
  | Ok (a : A)
  | Raise (e : exn).

Arguments Ok {A} a.
Arguments Raise {A} e.

Definition bind {A B : Type} (c : result A) (k : A -> result B) : result B :=
  match c with
  | Ok a => k a
  | Raise e => Raise e
  end.

Local Notation "'letf' x ':=' c 'in' k" := (bind c (fun x => k))
  (at level 10, x pattern, c at level 200, k at level 200).

(** Python's [a / b] on floats. *)
Definition py_div (a b : float) : result float :=
  if b =? 0 then Raise ZeroDivisionError else Ok (a / b).

(** [int(x)]: truncation towards zero; [int] of an infinity raises
    [OverflowError], [int] of a NaN [ValueError]. *)
Definition py_int (x : float) : result Z :=
  match Prim2SF x with
  | S754_zero _ => Ok 0%Z
  | S754_infinity _ => Raise OverflowError
  | S754_nan => Raise ValueError
  | S754_finite s m e =>
      let magnitude :=
        if (0 <=? e)%Z then (Z.pos m * 2 ^ e)%Z else (Z.pos m / 2 ^ (- e))%Z in
      Ok (if s then (- magnitude)%Z else magnitude)
  end.

(** [int(np.ceil(x))]. *)
Definition np_ceil_int (x : float) : result Z :=
  match Prim2SF x with
  | S754_zero _ => Ok 0%Z
  | S754_infinity _ => Raise OverflowError
  | S754_nan => Raise ValueError
  | S754_finite s m e =>
      if (0 <=? e)%Z then
        Ok (if s then (- (Z.pos m * 2 ^ e))%Z else (Z.pos m * 2 ^ e)%Z)
      else if s then Ok (- (Z.pos m / 2 ^ (- e)))%Z
      else Ok ((Z.pos m + 2 ^ (- e) - 1) / 2 ^ (- e))%Z
  end.

(** The float nearest to an integer, as in [units_to_sell * ord_per_share]. *)
Definition of_int (z : Z) : float :=
  SF2Prim (binary_normalize prec emax z 0 false).

Definition bracket : Type := (float * float)%type.

Definition ISRAELI_TAX_BRACKETS_2025 : list bracket :=
  [ (84120, 0.10);
    (120720, 0.14);
    (193800, 0.20);
    (269280, 0.31);
    (560280, 0.35);
    (721560, 0.47);
    (infinity, 0.50) ].

Definition CAPITAL_GAINS_RATE : float := 0.25.

Fixpoint tax_on_income_from (income : float) (brackets : list bracket)
    (tax previous_limit : float) : float :=
  match brackets with
  | [] => tax
  | (limit, rate) :: rest =>
      if previous_limit <? income then
        let taxable_in_bracket :=
          py_min (income - previous_limit) (limit - previous_limit) in
        tax_on_income_from income rest (tax + taxable_in_bracket * rate) limit
      else tax
  end.

Definition tax_on_income (income : float) (brackets : list bracket) : float :=
  tax_on_income_from income brackets 0 0.

Definition calc_progressive_tax (brackets : list bracket)
    (income_start increment : float) : float :=
  if increment <=? 0 then 0
  else
    let total_tax := tax_on_income (income_start + increment) brackets in
    let base_tax := tax_on_income income_start brackets in
    total_tax - base_tax.

(** The ordering invariant of a bracket table. *)
Definition rate_in_range (rate : float) : bool :=
  (0 <=? rate) && (rate <=? 1).

Fixpoint brackets_ordered (brackets : list bracket) : bool :=
  match brackets with
  | [] => false
  | [(limit, rate)] => rate_in_range rate && (limit =? infinity)
  | (limit, rate) :: (((next_limit, next_rate) :: _) as rest) =>
      rate_in_range rate && (limit <? next_limit)
      && (rate <=? next_rate) && brackets_ordered rest
  end.

(** The numbers of a resolved grant; [on_route] tells whether its note
    starts with [§102]. *)
Record components : Type := mkComponents {
  ordinary_per_share : float;
  capital_per_share : float;
  sale_price_nis : float;
  on_route : bool
}.

(** Lines 131-151: a grant on the Capital Gains Route; [early] is
    [sale_date < grant_date + relativedelta(months=24)]. *)
Definition route_components (early : bool)
    (sale_price_usd sale_fx grant_price_usd grant_fx : float) : components :=
  let sale_nis := sale_price_usd * sale_fx in
  let base_102_nis := grant_price_usd * grant_fx in
  if early then mkComponents sale_nis 0 sale_nis true
  else
    mkComponents (py_min base_102_nis sale_nis)
      (py_max 0 (sale_nis - base_102_nis)) sale_nis true.

(** Lines 131 and 153-159: a grant off the route. *)
Definition off_route_components
    (sale_price_usd sale_fx vest_price_usd vest_fx : float) : components :=
  let sale_nis := sale_price_usd * sale_fx in
  let vest_nis := vest_price_usd * vest_fx in
  mkComponents 0 (sale_nis - vest_nis) sale_nis false.

(** A row that resolved: its components and its unit count. *)
Record grant : Type := mkGrant {
  g_components : components;
  number_of_units : Z
}.

Record resolved : Type := mkResolved {
  r_grant : grant;
  efficiency : float
}.

Record recommendation : Type := mkRecommendation {
  rec_entry : resolved;
  units_to_sell : Z
}.

Definition ord_of (g : resolved) : float :=
  ordinary_per_share (g_components (r_grant g)).
Definition cap_of (g : resolved) : float :=
  capital_per_share (g_components (r_grant g)).
Definition units_of (g : resolved) : Z := number_of_units (r_grant g).

Definition compute_efficiency (c : components) : result float :=
  if (0 <? ordinary_per_share c) && (0 <? capital_per_share c) then
    py_div (capital_per_share c) (ordinary_per_share c)
  else if 0 <? capital_per_share c then Ok infinity
  else Ok 0.

Fixpoint grants_to_process (rsu_data : list grant) : result (list resolved) :=
  match rsu_data with
  | [] => Ok []
  | g :: rest =>
      letf e := compute_efficiency (g_components g) in
      letf processed := grants_to_process rest in
      Ok (mkResolved g e :: processed)
  end.

(** [sorted(l, key=efficiency, reverse=True)]: descending and stable. *)
Fixpoint insert_desc (x : resolved) (l : list resolved) : list resolved :=
  match l with
  | [] => [x]
  | y :: l' =>
      if efficiency x <? efficiency y then y :: insert_desc x l'
      else x :: l
  end.

Definition sorted_desc (l : list resolved) : list resolved :=
  fold_right insert_desc [] l.

Definition is_s102_gain (g : resolved) : bool :=
  on_route (g_components (r_grant g)) && (0 <=? cap_of g) && (0 <? ord_of g).

Definition is_cap_loss (g : resolved) : bool := cap_of g <? 0.

(** The phase-1 loop from the state [running_income]. *)
Fixpoint gains_phase (target_bracket_limit : float) (s102_gains : list resolved)
    (running_income : float) : result (list recommendation * float) :=
  match s102_gains with
  | [] => Ok ([], running_income)
  | g :: rest =>
      let ord_per_share := ord_of g in
      if ord_per_share <=? 0 then
        gains_phase target_bracket_limit rest running_income
      else
        let room_for_ord_income := target_bracket_limit - running_income in
        if room_for_ord_income <=? 0 then Ok ([], running_income)
        else
          letf q := py_div room_for_ord_income ord_per_share in
          letf fit := py_int q in
          let units := Z.min (units_of g) fit in
          if (units <=? 0)%Z then
            gains_phase target_bracket_limit rest running_income
          else
            letf (recs, final) :=
              gains_phase target_bracket_limit rest
                (running_income + of_int units * ord_per_share) in
            Ok (mkRecommendation g units :: recs, final)
  end.

(** [sum(...)] over the recommendations of phase 1, added from left to
    right.  (From Python 3.12 on [sum] compensates the rounding of its
    additions; with one or two terms the result is the same.) *)
Definition total_cap_gain (recs : list recommendation) : float :=
  fold_left
    (fun acc rec => acc + cap_of (rec_entry rec) * of_int (units_to_sell rec))
    recs 0.

(** The phase-2 loop from the state [running_loss_sold]. *)
Fixpoint loss_phase (total_cap_gain_to_offset : float)
    (cap_losses : list resolved) (running_loss_sold : float)
    : result (list recommendation * float) :=
  match cap_losses with
  | [] => Ok ([], running_loss_sold)
  | g :: rest =>
      if total_cap_gain_to_offset <=? running_loss_sold then
        Ok ([], running_loss_sold)
      else
        let loss_per_share := abs (cap_of g) in
        if loss_per_share <=? 0 then
          loss_phase total_cap_gain_to_offset rest running_loss_sold
        else
          let needed_loss := total_cap_gain_to_offset - running_loss_sold in
          letf q := py_div needed_loss loss_per_share in
          letf need := np_ceil_int q in
          let units := Z.min (units_of g) need in
          if (units <=? 0)%Z then
            loss_phase total_cap_gain_to_offset rest running_loss_sold
          else
            letf (recs, final) :=
              loss_phase total_cap_gain_to_offset rest
                (running_loss_sold + of_int units * loss_per_share) in
            Ok (mkRecommendation g units :: recs, final)
  end.

(** What a run of the two loops leaves behind: the recommendations of
    either loop, the last [running_income], the capital gain to offset and
    the last [running_loss_sold]. *)
Record allocation : Type := mkAllocation {
  gain_recs : list recommendation;
  running_income : float;
  total_cap_gain_to_offset : float;
  loss_recs : list recommendation;
  running_loss_sold : float
}.

Definition allocate (rsu_data : list grant)
    (current_income target_bracket_limit : float) : result allocation :=
  letf processed := grants_to_process rsu_data in
  let s102_gains := sorted_desc (List.filter is_s102_gain processed) in
  let cap_losses := List.filter is_cap_loss processed in
  letf (recs1, income) :=
    gains_phase target_bracket_limit s102_gains current_income in
  let total := total_cap_gain recs1 in
  letf (recs2, loss) := loss_phase total cap_losses 0 in
  Ok (mkAllocation recs1 income total recs2 loss).

(** The figures of one row of the final loop; [gross] is
    [sale_price_nis * units]. *)
Record breakdown : Type := mkBreakdown {
  b_units : Z;
  ord_total : float;
  cap_total : float;
  income_tax : float;
  cgt : float;
  total_tax : float;
  gross : float;
  net_proceeds : float
}.

Fixpoint tax_breakdowns (recommendations : list recommendation)
    (running_income_for_tax : float) : list breakdown :=
  match recommendations with
  | [] => []
  | rec :: rest =>
      let c := g_components (r_grant (rec_entry rec)) in
      let units := of_int (units_to_sell rec) in
      let ord_total := ordinary_per_share c * units in
      let cap_total := capital_per_share c * units in
      let income_tax :=
        calc_progressive_tax ISRAELI_TAX_BRACKETS_2025
          running_income_for_tax ord_total in
      let cgt := py_max 0 cap_total * CAPITAL_GAINS_RATE in
      let total_tax := income_tax + cgt in
      let gross := sale_price_nis c * units in
      mkBreakdown (units_to_sell rec) ord_total cap_total income_tax cgt
        total_tax gross (gross - total_tax)
      :: tax_breakdowns rest (running_income_for_tax + ord_total)
  end.

Definition sale_plan (rsu_data : list grant)
    (current_income target_bracket_limit : float) : result (list breakdown) :=
  letf a := allocate rsu_data current_income target_bracket_limit in
  Ok (tax_breakdowns (gain_recs a ++ loss_recs a) current_income).

Definition units_sold (recs : list recommendation) : list Z :=
  List.map units_to_sell recs.

(** The allowance [rounding_slack], computed on floats. *)
Definition rounding_slack (magnitude : float) : float :=
  0.000000001 * (1 + abs magnitude).

(** A grant on the route, held 24 months, that sells at its base value. *)
Definition flat_grant (price_usd fx : float) (units : Z) : grant :=
  mkGrant (route_components false price_usd fx price_usd fx) units.

(** A gain on the route, and a loss of the same size per share off it:
    350.33 against 275.69 USD, all at the rate 3.09. *)
Definition mirrored_gain (units : Z) : grant :=
  mkGrant (route_components false 350.33 3.09 275.69 3.09) units.
Definition mirrored_loss (units : Z) : grant :=
  mkGrant (off_route_components 275.69 3.09 350.33 3.09) units.

End Binary64.

(** * Properties *)

(** ** Arithmetic of the Python primitives *)

Lemma Qltb_lt (a b : Q) : Qltb a b = true <-> a < b.
Proof.
  unfold Qltb. rewrite negb_true_iff. split.
  - intros H. apply Qnot_le_lt. intros Hle.
    apply Qle_bool_iff in Hle. congruence.
  - intros H. destruct (Qle_bool b a) eqn:E; [|reflexivity].
    apply Qle_bool_iff in E. lra.
Qed.

Lemma Qltb_ge (a b : Q) : Qltb a b = false <-> b <= a.
Proof.
  unfold Qltb. rewrite negb_false_iff. apply Qle_bool_iff.
Qed.

Lemma Qle_bool_gt (a b : Q) : Qle_bool a b = false <-> b < a.
Proof.
  rewrite <- Qltb_lt. unfold Qltb. destruct (Qle_bool a b); simpl; intuition congruence.
Qed.

#[export] Instance Qltb_proper : Proper (Qeq ==> Qeq ==> eq) Qltb.
Proof.
  intros a a' Ha b b' Hb. unfold Qltb. now rewrite Ha, Hb.
Qed.

#[export] Instance py_min_proper : Proper (Qeq ==> Qeq ==> Qeq) py_min.
Proof.
  intros a a' Ha b b' Hb. unfold py_min. rewrite Ha, Hb.
  destruct (Qltb b' a'); assumption.
Qed.

#[export] Instance py_max_proper : Proper (Qeq ==> Qeq ==> Qeq) py_max.
Proof.
  intros a a' Ha b b' Hb. unfold py_max. rewrite Ha, Hb.
  destruct (Qltb a' b'); assumption.
Qed.

Lemma py_min_spec (a b : Q) :
  (b < a /\ py_min a b = b) \/ (a <= b /\ py_min a b = a).
Proof.
  unfold py_min. destruct (Qltb b a) eqn:E.
  - left. apply Qltb_lt in E. auto.
  - right. apply Qltb_ge in E. auto.
Qed.

Lemma py_max_spec (a b : Q) :
  (a < b /\ py_max a b = b) \/ (b <= a /\ py_max a b = a).
Proof.
  unfold py_max. destruct (Qltb a b) eqn:E.
  - left. apply Qltb_lt in E. auto.
  - right. apply Qltb_ge in E. auto.
Qed.

Lemma py_abs_spec (a : Q) :
  (a < 0 /\ py_abs a = - a) \/ (0 <= a /\ py_abs a = a).
Proof.
  unfold py_abs. destruct (Qltb a 0) eqn:E.
  - left. apply Qltb_lt in E. auto.
  - right. apply Qltb_ge in E. auto.
Qed.

Lemma py_abs_nonneg (a : Q) : 0 <= py_abs a.
Proof.
  destruct (py_abs_spec a) as [[H ->]|[H ->]]; lra.
Qed.

(** The allowance for rounding is positive. *)
Lemma rounding_slack_pos (magnitude : Q) : 0 < rounding_slack magnitude.
Proof.
  unfold rounding_slack. pose proof (py_abs_nonneg magnitude) as H.
  assert (E : (1 # 1000000000) * (1 + py_abs magnitude)
              == (1 # 1000000000) + (1 # 1000000000) * py_abs magnitude)
    by ring.
  rewrite E. clear E.
  assert (Hp : 0 < 1 # 1000000000) by reflexivity.
  assert (Hm : 0 <= (1 # 1000000000) * py_abs magnitude).
  { apply Qmult_le_0_compat; [apply Qlt_le_weak; exact Hp|exact H]. }
  lra.
Qed.

Lemma py_int_floor (x : Q) : 0 <= x -> py_int x = Qfloor x.
Proof.
  intros Hx. destruct x as [n d]. unfold py_int, Qfloor. simpl.
  apply Z.quot_div_nonneg; [|lia].
  unfold Qle in Hx. simpl in Hx. lia.
Qed.

Lemma py_div_ok (a b : Q) : ~ b == 0 -> py_div a b = Ok (a / b).
Proof.
  intros Hb. unfold py_div. destruct (Qeq_bool b 0) eqn:E; [|reflexivity].
  apply Qeq_bool_iff in E. contradiction.
Qed.

(** ** Bracket tax calculator *)

Lemma tax_on_income_from_proper (brackets : list bracket) :
  forall (income income' tax tax' : Q) (previous_limit : xnum),
    income == income' -> tax == tax' ->
    tax_on_income_from income brackets tax previous_limit
    == tax_on_income_from income' brackets tax' previous_limit.
Proof.
  induction brackets as [|[limit rate] rest IH];
    intros income income' tax tax' prev Hi Ht; simpl.
  - exact Ht.
  - destruct prev as [p|]; [|exact Ht].
    rewrite <- Hi. destruct (Qltb p income); [|exact Ht].
    apply IH; [exact Hi|].
    destruct limit as [l|]; simpl; rewrite Hi, Ht; reflexivity.
Qed.

#[export] Instance tax_on_income_proper :
  Proper (Qeq ==> eq ==> Qeq) tax_on_income.
Proof.
  intros a a' Ha bs bs' <-. unfold tax_on_income.
  apply tax_on_income_from_proper; [exact Ha|reflexivity].
Qed.

#[export] Instance calc_progressive_tax_proper :
  Proper (eq ==> Qeq ==> Qeq ==> Qeq) calc_progressive_tax.
Proof.
  intros bs bs' <- a a' Ha b b' Hb. unfold calc_progressive_tax.
  rewrite Hb. destruct (Qle_bool b' 0); [reflexivity|].
  rewrite Ha, Hb. reflexivity.
Qed.

(** In exact arithmetic, slicing an income increment does not change the
    tax on it, for any bracket table whatever. *)
Lemma calc_progressive_tax_split (brackets : list bracket) (base x y : Q) :
  0 <= x -> 0 <= y ->
  calc_progressive_tax brackets base (x + y)
  == calc_progressive_tax brackets base x
     + calc_progressive_tax brackets (base + x) y.
Proof.
  intros Hx Hy. unfold calc_progressive_tax.
  assert (Hassoc : tax_on_income (base + (x + y)) brackets
                   == tax_on_income (base + x + y) brackets).
  { apply tax_on_income_proper; [lra|reflexivity]. }
  destruct (Qle_bool x 0) eqn:Ex; destruct (Qle_bool y 0) eqn:Ey.
  - apply Qle_bool_iff in Ex, Ey.
    assert (E : Qle_bool (x + y) 0 = true) by (apply Qle_bool_iff; lra).
    rewrite E. lra.
  - apply Qle_bool_iff in Ex. apply Qle_bool_gt in Ey.
    assert (E : Qle_bool (x + y) 0 = false) by (apply Qle_bool_gt; lra).
    rewrite E.
    assert (H2 : tax_on_income (base + x) brackets
                 == tax_on_income base brackets).
    { apply tax_on_income_proper; [lra|reflexivity]. }
    lra.
  - apply Qle_bool_gt in Ex. apply Qle_bool_iff in Ey.
    assert (E : Qle_bool (x + y) 0 = false) by (apply Qle_bool_gt; lra).
    rewrite E.
    assert (H2 : tax_on_income (base + (x + y)) brackets
                 == tax_on_income (base + x) brackets).
    { apply tax_on_income_proper; [lra|reflexivity]. }
    lra.
  - apply Qle_bool_gt in Ex, Ey.
    assert (E : Qle_bool (x + y) 0 = false) by (apply Qle_bool_gt; lra).
    rewrite E. lra.
Qed.



(** ** Tax component resolver *)

Lemma available_truthy (v : option Q) (q : Q) : available v q -> truthy v = true.
Proof.
  intros [-> Hq]. simpl. destruct (Qeq_bool q 0) eqn:E; [|reflexivity].
  apply Qeq_bool_iff in E. contradiction.
Qed.

Lemma is_zero_falsy (v : option Q) : is_zero v -> truthy v = false.
Proof.
  intros (q & -> & Hq). simpl. apply Qeq_bool_iff in Hq. now rewrite Hq.
Qed.

Lemma truthy_zero_as_missing (v : option Q) :
  truthy (zero_as_missing v) = truthy v.
Proof.
  unfold zero_as_missing. destruct (truthy v) eqn:E; [exact E|reflexivity].
Qed.

Lemma zero_as_missing_truthy (v : option Q) :
  truthy v = true -> zero_as_missing v = v.
Proof.
  unfold zero_as_missing. now intros ->.
Qed.

Section ResolverFacts.

Variable get_stock_price : string -> date -> bool -> option Q.
Variable get_fx_rate : date -> option Q.

(** Resolution succeeds only if every required value is truthy. *)
Lemma get_tax_components_requires (grant : Grant) (sale_date : date) :
  py_all (required_values get_stock_price get_fx_rate grant sale_date) = false ->
  get_tax_components get_stock_price get_fx_rate grant sale_date = None.
Proof.
  unfold required_values, get_tax_components, py_all.
  rewrite forallb_app.
  destruct (forallb truthy [_; _; _; _]) eqn:E4; [|reflexivity].
  simpl negb. cbv iota.
  destruct (get_stock_price (stock_code grant) sale_date false) as [sp|];
    [|reflexivity].
  destruct (get_fx_rate sale_date) as [sfx|]; [|reflexivity].
  destruct (get_stock_price (stock_code grant) (grant_date grant) true)
    as [gp|]; [|reflexivity].
  destruct (get_fx_rate (grant_date grant)) as [gfx|]; [|reflexivity].
  destruct (String.eqb (section_102 grant) CAPITAL_GAINS_ROUTE).
  - simpl. discriminate.
  - rewrite andb_true_l. simpl forallb. intros ->. reflexivity.
Qed.

(** The resolver cannot tell a zero from a failed look-up. *)
Lemma get_tax_components_zero_as_missing (grant : Grant) (sale_date : date) :
  get_tax_components
    (fun t d a => zero_as_missing (get_stock_price t d a))
    (fun d => zero_as_missing (get_fx_rate d)) grant sale_date
  = get_tax_components get_stock_price get_fx_rate grant sale_date.
Proof.
  unfold get_tax_components, py_all, forallb.
  rewrite !truthy_zero_as_missing.
  destruct (truthy (get_stock_price (stock_code grant) sale_date false)) eqn:E1;
    [|reflexivity].
  destruct (truthy (get_fx_rate sale_date)) eqn:E2; [|reflexivity].
  destruct (truthy (get_stock_price (stock_code grant) (grant_date grant) true))
    eqn:E3; [|reflexivity].
  destruct (truthy (get_fx_rate (grant_date grant))) eqn:E4; [|reflexivity].
  rewrite !(zero_as_missing_truthy _ E1), !(zero_as_missing_truthy _ E2),
    !(zero_as_missing_truthy _ E3), !(zero_as_missing_truthy _ E4).
  simpl negb. cbv iota.
  destruct (get_stock_price (stock_code grant) sale_date false) as [sp|];
    [|reflexivity].
  destruct (get_fx_rate sale_date) as [sfx|]; [|reflexivity].
  destruct (get_stock_price (stock_code grant) (grant_date grant) true)
    as [gp|]; [|reflexivity].
  destruct (get_fx_rate (grant_date grant)) as [gfx|]; [|reflexivity].
  destruct (String.eqb (section_102 grant) CAPITAL_GAINS_ROUTE); [reflexivity|].
  destruct (truthy (get_stock_price (stock_code grant) (vesting_date grant) false))
    eqn:E5; [|reflexivity].
  destruct (truthy (get_fx_rate (vesting_date grant))) eqn:E6; [|reflexivity].
  rewrite !(zero_as_missing_truthy _ E5), !(zero_as_missing_truthy _ E6).
  reflexivity.
Qed.

(** What the Capital Gains Route branch returns once the four look-ups
    have succeeded. *)
Lemma get_tax_components_capital_gains_route
    (grant : Grant) (sale_date : date) (sp sfx gp gfx : Q) :
  section_102 grant = CAPITAL_GAINS_ROUTE ->
  available (get_stock_price (stock_code grant) sale_date false) sp ->
  available (get_fx_rate sale_date) sfx ->
  available (get_stock_price (stock_code grant) (grant_date grant) true) gp ->
  available (get_fx_rate (grant_date grant)) gfx ->
  get_tax_components get_stock_price get_fx_rate grant sale_date
  = let sale_nis := sp * sfx in
    let base_102_nis := gp * gfx in
    if date_ltb sale_date (add_months (grant_date grant) 24) then
      Some (mkComponents sale_nis 0 sale_nis base_102_nis sp gp
              NOTE_DISQUALIFIED)
    else
      Some (mkComponents (py_min base_102_nis sale_nis)
              (py_max 0 (sale_nis - base_102_nis)) sale_nis base_102_nis sp gp
              (if Qltb sale_nis base_102_nis
               then NOTE_UNDERWATER else NOTE_CAPITAL_GAINS)).
Proof.
  intros Hroute Hsp Hsfx Hgp Hgfx.
  pose proof (available_truthy _ _ Hsp) as T1.
  pose proof (available_truthy _ _ Hsfx) as T2.
  pose proof (available_truthy _ _ Hgp) as T3.
  pose proof (available_truthy _ _ Hgfx) as T4.
  destruct Hsp as [Esp _], Hsfx as [Esfx _], Hgp as [Egp _], Hgfx as [Egfx _].
  unfold get_tax_components, py_all, forallb.
  rewrite Esp, Esfx, Egp, Egfx in *.
  rewrite T1, T2, T3, T4, Hroute. simpl.
  destruct (date_ltb sale_date (add_months (grant_date grant) 24)); reflexivity.
Qed.

(** When the resolver returns components, the four look-ups it starts with
    were available. *)
Lemma get_tax_components_Some_available
    (grant : Grant) (sale_date : date) (c : components) :
  get_tax_components get_stock_price get_fx_rate grant sale_date = Some c ->
  exists sp sfx gp gfx,
    available (get_stock_price (stock_code grant) sale_date false) sp
    /\ available (get_fx_rate sale_date) sfx
    /\ available (get_stock_price (stock_code grant) (grant_date grant) true) gp
    /\ available (get_fx_rate (grant_date grant)) gfx.
Proof.
  unfold get_tax_components, py_all, forallb, available.
  destruct (get_stock_price (stock_code grant) sale_date false) as [sp|];
    [|discriminate].
  destruct (get_fx_rate sale_date) as [sfx|];
    [|rewrite andb_false_r; discriminate].
  destruct (get_stock_price (stock_code grant) (grant_date grant) true)
    as [gp|]; [|rewrite !andb_false_r; discriminate].
  destruct (get_fx_rate (grant_date grant)) as [gfx|];
    [|rewrite !andb_false_r; discriminate].
  unfold truthy.
  destruct (Qeq_bool sp 0) eqn:E1; [discriminate|].
  destruct (Qeq_bool sfx 0) eqn:E2; [discriminate|].
  destruct (Qeq_bool gp 0) eqn:E3; [discriminate|].
  destruct (Qeq_bool gfx 0) eqn:E4; [discriminate|].
  intros _. exists sp, sfx, gp, gfx.
  repeat split; try reflexivity; intros H; apply Qeq_bool_iff in H; congruence.
Qed.

(** C2. On the Capital Gains Route, held at least 24 months, with the sale
    value strictly below the grant-date base value, the resolver returns a
    capital component of 0 and an ordinary component equal to the sale
    value. *)
Theorem underwater_is_ordinary_income_only
    (grant : Grant) (sale_date : date) (sp sfx gp gfx : Q) :
  section_102 grant = CAPITAL_GAINS_ROUTE ->
  date_ltb sale_date (add_months (grant_date grant) 24) = false ->
  available (get_stock_price (stock_code grant) sale_date false) sp ->
  available (get_fx_rate sale_date) sfx ->
  available (get_stock_price (stock_code grant) (grant_date grant) true) gp ->
  available (get_fx_rate (grant_date grant)) gfx ->
  sp * sfx < gp * gfx ->
  exists c,
    get_tax_components get_stock_price get_fx_rate grant sale_date = Some c
    /\ capital_per_share c = 0
    /\ ordinary_per_share c = sp * sfx
    /\ sale_price_nis c = sp * sfx
    /\ grant_price_nis c = gp * gfx.
Proof.
  intros Hroute Hheld Hsp Hsfx Hgp Hgfx Hunder.
  rewrite (get_tax_components_capital_gains_route grant sale_date sp sfx gp gfx)
    by assumption.
  cbv zeta. rewrite Hheld. eexists. split; [reflexivity|]. simpl.
  destruct (py_min_spec (gp * gfx) (sp * sfx)) as [[_ ->]|[Hle _]]; [|lra].
  destruct (py_max_spec 0 (sp * sfx - gp * gfx)) as [[Hlt _]|[_ ->]]; [lra|].
  auto.
Qed.

(** C3. On the Capital Gains Route, sold earlier than 24 months after the
    grant date, the resolver returns the full sale value as the ordinary
    component and 0 as the capital component, whatever the base value. *)
Theorem early_sale_is_all_ordinary
    (grant : Grant) (sale_date : date) (sp sfx gp gfx : Q) :
  section_102 grant = CAPITAL_GAINS_ROUTE ->
  date_ltb sale_date (add_months (grant_date grant) 24) = true ->
  available (get_stock_price (stock_code grant) sale_date false) sp ->
  available (get_fx_rate sale_date) sfx ->
  available (get_stock_price (stock_code grant) (grant_date grant) true) gp ->
  available (get_fx_rate (grant_date grant)) gfx ->
  exists c,
    get_tax_components get_stock_price get_fx_rate grant sale_date = Some c
    /\ ordinary_per_share c = sp * sfx
    /\ capital_per_share c = 0
    /\ sale_price_nis c = sp * sfx.
Proof.
  intros Hroute Hearly Hsp Hsfx Hgp Hgfx.
  rewrite (get_tax_components_capital_gains_route grant sale_date sp sfx gp gfx)
    by assumption.
  cbv zeta. rewrite Hearly. eexists. split; [reflexivity|]. simpl. auto.
Qed.

(** C9. If any required market value (sale price, sale FX rate, grant-date
    price, grant-date FX rate or, off the Capital Gains Route, vesting-date
    price or FX rate) is the number 0, resolution fails, exactly as it does
    when that value is replaced by a failed look-up, and the optimizer's
    first loop leaves the grant out. *)
Theorem zero_value_fails_like_missing_data (grant : Grant) (sale_date : date) :
  Exists is_zero (required_values get_stock_price get_fx_rate grant sale_date) ->
  get_tax_components get_stock_price get_fx_rate grant sale_date = None
  /\ get_tax_components
       (fun t d a => zero_as_missing (get_stock_price t d a))
       (fun d => zero_as_missing (get_fx_rate d)) grant sale_date
     = None
  /\ forall rest,
       grants_to_process get_stock_price get_fx_rate sale_date (grant :: rest)
       = grants_to_process get_stock_price get_fx_rate sale_date rest.
Proof.
  intros Hzero.
  assert (Hnone :
    get_tax_components get_stock_price get_fx_rate grant sale_date = None).
  { apply get_tax_components_requires. unfold py_all.
    apply Exists_exists in Hzero. destruct Hzero as (v & Hin & Hv).
    apply is_zero_falsy in Hv.
    destruct (forallb truthy
                (required_values get_stock_price get_fx_rate grant sale_date))
      eqn:E;
      [|reflexivity].
    rewrite forallb_forall in E. apply list_elem_of_In in Hin.
    specialize (E v Hin). congruence. }
  split; [exact Hnone|]. split.
  - rewrite get_tax_components_zero_as_missing. exact Hnone.
  - intros rest. simpl. now rewrite Hnone.
Qed.

End ResolverFacts.

(** ** The two phases *)

(** Floor division keeps the ordinary income sold within the room. *)
Lemma floor_units_fit (room ord : Q) (n : Z) :
  0 < ord -> 0 < room ->
  py_int (room / ord) = Qfloor (room / ord)
  /\ inject_Z (Z.min n (py_int (room / ord))) * ord <= room.
Proof.
  intros Hord Hroom.
  assert (Hq : 0 <= room / ord).
  { apply Qle_shift_div_l; [exact Hord|lra]. }
  rewrite (py_int_floor _ Hq). split; [reflexivity|].
  assert (Hfl : inject_Z (Z.min n (Qfloor (room / ord))) <= room / ord).
  { apply Qle_trans with (inject_Z (Qfloor (room / ord))).
    - rewrite <- Zle_Qle. lia.
    - apply Qfloor_le. }
  apply (Qmult_le_compat_r _ _ ord) in Hfl; [|lra].
  assert (Hdiv : room / ord * ord == room) by (field; lra).
  lra.
Qed.

(** Ceiling division overshoots the needed loss by less than one share. *)
Lemma ceil_units_overshoot (needed lps : Q) (n : Z) :
  0 < lps ->
  inject_Z (Z.min n (np_ceil_int (needed / lps))) * lps < needed + lps.
Proof.
  intros Hlps. unfold np_ceil_int.
  assert (Hc : inject_Z (Z.min n (Qceiling (needed / lps))) < needed / lps + 1).
  { apply Qle_lt_trans with (inject_Z (Qceiling (needed / lps))).
    - rewrite <- Zle_Qle. lia.
    - pose proof (Qceiling_lt (needed / lps)) as H.
      unfold Z.sub in H. rewrite inject_Z_plus in H.
      assert (E : inject_Z (- (1)) == - (1)) by reflexivity.
      rewrite E in H. lra. }
  apply (Qmult_lt_compat_r _ _ lps) in Hc; [|exact Hlps].
  assert (Hdiv : (needed / lps + 1) * lps == needed + lps) by (field; lra).
  lra.
Qed.

(** In exact arithmetic one unit more than the floor-division choice does
    not fit in the room. *)
Lemma floor_units_maximal (room ord : Q) :
  0 < ord -> room < inject_Z (Qfloor (room / ord) + 1) * ord.
Proof.
  intros Hord. pose proof (Qlt_floor (room / ord)) as Hfloor.
  apply (Qmult_lt_compat_r _ _ ord) in Hfloor; [|exact Hord].
  assert (Hdiv : room / ord * ord == room) by (field; lra).
  lra.
Qed.

(** In exact arithmetic the ceiling-division choice covers the need. *)
Lemma ceil_units_reach (needed lps : Q) :
  0 < lps -> needed <= inject_Z (Qceiling (needed / lps)) * lps.
Proof.
  intros Hlps. pose proof (Qle_ceiling (needed / lps)) as Hceil.
  apply (Qmult_le_compat_r _ _ lps) in Hceil; [|lra].
  assert (Hdiv : needed / lps * lps == needed) by (field; lra).
  lra.
Qed.

Lemma gains_phase_spec (target : Q) (gains : list resolved) :
  forall start : Q,
  exists recs,
    gains_phase target gains start = Ok (recs, running_income_after start recs)
    /\ (forall pre rec post, recs = pre ++ rec :: post ->
          gains_step target (running_income_after start pre) rec)
    /\ sublist (List.map rec_entry recs) gains.
Proof.
  induction gains as [|grant rest IH]; intros start; simpl.
  - exists []. split; [reflexivity|]. split; [|constructor].
    intros [|? ?] ? ? H; discriminate H.
  - destruct (Qle_bool (ord_of grant) 0) eqn:Eord.
    { destruct (IH start) as (recs & Heq & Hsteps & Hsub).
      exists recs. split; [exact Heq|]. split; [exact Hsteps|].
      now apply sublist_cons. }
    apply Qle_bool_gt in Eord.
    destruct (Qle_bool (target - start) 0) eqn:Eroom.
    { exists []. split; [reflexivity|]. split; [|apply sublist_nil_l].
      intros [|? ?] ? ? H; discriminate H. }
    apply Qle_bool_gt in Eroom.
    rewrite py_div_ok by lra. simpl bind.
    destruct (floor_units_fit (target - start) (ord_of grant) (units_of grant)
                Eord Eroom) as [Hint Hfit].
    destruct (Z.min (units_of grant) (py_int ((target - start) / ord_of grant))
              <=? 0)%Z eqn:Eu.
    { destruct (IH start) as (recs & Heq & Hsteps & Hsub).
      exists recs. split; [exact Heq|]. split; [exact Hsteps|].
      now apply sublist_cons. }
    apply Z.leb_gt in Eu.
    set (units := Z.min (units_of grant)
                    (py_int ((target - start) / ord_of grant))) in *.
    destruct (IH (start + inject_Z units * ord_of grant))
      as (recs & Heq & Hsteps & Hsub).
    rewrite Heq. simpl bind.
    exists (mkRecommendation grant units :: recs).
    split; [reflexivity|]. split; [|simpl; now apply sublist_skip].
    intros [|rec0 pre] rec post Hsplit; simpl in Hsplit.
    + injection Hsplit as <- _. unfold gains_step. simpl.
      repeat split; try lra; try lia.
      unfold units. now rewrite Hint.
    + injection Hsplit as <- Hsplit. simpl. now apply (Hsteps _ _ post).
Qed.

(** Phase 1 stops entirely once there is no room left. *)
Lemma gains_phase_no_room (target : Q) (gains : list resolved) (start : Q) :
  target - start <= 0 ->
  gains_phase target gains start = Ok ([], start).
Proof.
  intros Hroom.
  destruct (gains_phase_spec target gains start) as ([|rec post] & Heq & Hsteps & _);
    [exact Heq|].
  destruct (Hsteps [] rec post eq_refl) as (_ & _ & Hpos & _).
  simpl in Hpos. lra.
Qed.

Lemma loss_phase_spec (total : Q) (losses : list resolved) :
  forall start : Q,
  Forall (fun g => cap_of g < 0) losses ->
  exists recs,
    loss_phase total losses start = Ok (recs, running_loss_after start recs)
    /\ (forall pre rec post, recs = pre ++ rec :: post ->
          loss_step total (running_loss_after start pre) rec)
    /\ sublist (List.map rec_entry recs) losses.
Proof.
  induction losses as [|grant rest IH]; intros start Hneg; simpl.
  - exists []. split; [reflexivity|]. split; [|constructor].
    intros [|? ?] ? ? H; discriminate H.
  - apply Forall_cons in Hneg. destruct Hneg as [Hcap Hneg].
    destruct (Qle_bool total start) eqn:Estop.
    { exists []. split; [reflexivity|]. split; [|apply sublist_nil_l].
      intros [|? ?] ? ? H; discriminate H. }
    apply Qle_bool_gt in Estop.
    destruct (Qle_bool (py_abs (cap_of grant)) 0) eqn:Elps.
    { destruct (IH start Hneg) as (recs & Heq & Hsteps & Hsub).
      exists recs. split; [exact Heq|]. split; [exact Hsteps|].
      now apply sublist_cons. }
    apply Qle_bool_gt in Elps.
    rewrite py_div_ok by lra. simpl bind.
    pose proof (ceil_units_overshoot (total - start) (py_abs (cap_of grant))
                  (units_of grant) Elps) as Hover.
    destruct (Z.min (units_of grant)
                (np_ceil_int ((total - start) / py_abs (cap_of grant)))
              <=? 0)%Z eqn:Eu.
    { destruct (IH start Hneg) as (recs & Heq & Hsteps & Hsub).
      exists recs. split; [exact Heq|]. split; [exact Hsteps|].
      now apply sublist_cons. }
    apply Z.leb_gt in Eu.
    set (units := Z.min (units_of grant)
                    (np_ceil_int ((total - start) / py_abs (cap_of grant))))
      in *.
    destruct (IH (start + inject_Z units * py_abs (cap_of grant)) Hneg)
      as (recs & Heq & Hsteps & Hsub).
    rewrite Heq. simpl bind.
    exists (mkRecommendation grant units :: recs).
    split; [reflexivity|]. split; [|simpl; now apply sublist_skip].
    intros [|rec0 pre] rec post Hsplit; simpl in Hsplit.
    + injection Hsplit as <- _. unfold loss_step. simpl.
      repeat split; try lra; try lia.
    + injection Hsplit as <- Hsplit. simpl. now apply (Hsteps _ _ post).
Qed.

(** Phase 2 stops entirely once the cumulative loss has reached the
    target. *)
Lemma loss_phase_target_reached (total : Q) (losses : list resolved)
    (start : Q) :
  total <= start ->
  loss_phase total losses start = Ok ([], start).
Proof.
  intros Hreached. destruct losses as [|grant rest]; simpl; [reflexivity|].
  apply Qle_bool_iff in Hreached. now rewrite Hreached.
Qed.

(** ** Lists: filtering, sorting and selection *)

Lemma sublist_map {A B : Type} (f : A -> B) (l k : list A) :
  sublist l k -> sublist (List.map f l) (List.map f k).
Proof.
  induction 1; simpl; [constructor|now apply sublist_skip|now apply sublist_cons].
Qed.

Lemma filter_sublist {A : Type} (f : A -> bool) (l : list A) :
  sublist (List.filter f l) l.
Proof.
  induction l as [|x l IH]; simpl; [constructor|].
  destruct (f x); [now apply sublist_skip|now apply sublist_cons].
Qed.

(** Two filters that never accept the same element select disjoint parts. *)
Lemma filter_disjoint_submseteq {A : Type} (f g : A -> bool) (l : list A) :
  (forall x, f x = true -> g x = false) ->
  List.filter f l ++ List.filter g l ⊆+ l.
Proof.
  intros Hdisj. induction l as [|x l IH]; simpl; [constructor|].
  destruct (f x) eqn:Ef.
  - rewrite (Hdisj x Ef). simpl. now apply submseteq_skip.
  - destruct (g x).
    + rewrite <- Permutation_middle. now apply submseteq_skip.
    + now apply submseteq_cons.
Qed.

Lemma insert_desc_perm (x : resolved) (l : list resolved) :
  insert_desc x l ≡ₚ x :: l.
Proof.
  induction l as [|y l IH]; simpl; [reflexivity|].
  destruct (xltb (efficiency x) (efficiency y)); [|reflexivity].
  rewrite IH. apply perm_swap.
Qed.

Lemma sorted_desc_perm (l : list resolved) : sorted_desc l ≡ₚ l.
Proof.
  induction l as [|x l IH]; simpl; [reflexivity|].
  rewrite insert_desc_perm. now rewrite IH.
Qed.

Lemma gain_is_not_loss (g : resolved) :
  is_s102_gain g = true -> is_cap_loss g = false.
Proof.
  unfold is_s102_gain, is_cap_loss. intros H.
  apply andb_true_iff in H. destruct H as [H _].
  apply andb_true_iff in H. destruct H as [_ H].
  apply Qle_bool_iff in H. now apply Qltb_ge.
Qed.

Lemma compute_efficiency_ok (c : components) :
  exists e, compute_efficiency c = Ok e.
Proof.
  unfold compute_efficiency.
  destruct (Qltb 0 (ordinary_per_share c)) eqn:Eo; simpl.
  - destruct (Qltb 0 (capital_per_share c)); simpl.
    + apply Qltb_lt in Eo. rewrite py_div_ok by lra. simpl. eauto.
    + eauto.
  - destruct (Qltb 0 (capital_per_share c)); eauto.
Qed.

(** ** The optimizer *)

Section OptimizerFacts.

Variable get_stock_price : string -> date -> bool -> option Q.
Variable get_fx_rate : date -> option Q.
Variable today : date.

Local Abbreviation resolve := (get_tax_components get_stock_price get_fx_rate).
Local Abbreviation process := (grants_to_process get_stock_price get_fx_rate today).
Local Abbreviation run := (allocate get_stock_price get_fx_rate today).

(** The first loop never raises; it keeps the rows that resolve, in order,
    each with the components the resolver returned for it. *)
Lemma grants_to_process_spec (rsu_data : list Grant) :
  exists processed,
    process rsu_data = Ok processed
    /\ sublist (List.map r_grant processed) rsu_data
    /\ Forall (fun g => resolve (r_grant g) today = Some (r_components g))
         processed.
Proof.
  induction rsu_data as [|grant rest IH]; simpl.
  - exists []. repeat constructor.
  - destruct IH as (processed & Heq & Hsub & Hres).
    destruct (resolve grant today) as [c|] eqn:Ec.
    + destruct (compute_efficiency_ok c) as [e He].
      rewrite He, Heq. simpl.
      exists (mkResolved grant c e :: processed).
      split; [reflexivity|]. split; [simpl; now apply sublist_skip|].
      constructor; [exact Ec|exact Hres].
    + exists processed. split; [exact Heq|]. split; [|exact Hres].
      now apply sublist_cons.
Qed.

(** Both phases run to completion on every input, and each recommendation
    satisfies its phase's step property. *)
Lemma allocate_spec (rsu_data : list Grant) (current_income target : Q) :
  exists processed recs1 recs2,
    process rsu_data = Ok processed
    /\ run rsu_data current_income target = Ok (recs1, recs2)
    /\ (forall pre rec post, recs1 = pre ++ rec :: post ->
          gains_step target (running_income_after current_income pre) rec)
    /\ sublist (List.map rec_entry recs1) (s102_gains processed)
    /\ (forall pre rec post, recs2 = pre ++ rec :: post ->
          loss_step (total_cap_gain recs1) (running_loss_after 0 pre) rec)
    /\ sublist (List.map rec_entry recs2) (cap_losses processed).
Proof.
  destruct (grants_to_process_spec rsu_data) as (processed & Hp & _ & _).
  destruct (gains_phase_spec target (s102_gains processed) current_income)
    as (recs1 & H1 & Hsteps1 & Hsub1).
  assert (Hneg : Forall (fun g => cap_of g < 0) (cap_losses processed)).
  { apply List.Forall_forall. intros g Hg. unfold cap_losses in Hg.
    apply filter_In in Hg. destruct Hg as [_ Hg]. now apply Qltb_lt. }
  destruct (loss_phase_spec (total_cap_gain recs1) (cap_losses processed) 0 Hneg)
    as (recs2 & H2 & Hsteps2 & Hsub2).
  exists processed, recs1, recs2.
  split; [exact Hp|]. split.
  { unfold allocate. rewrite Hp. simpl bind. rewrite H1. simpl bind.
    rewrite H2. reflexivity. }
  auto.
Qed.

End OptimizerFacts.

(** ** Invariants of the two phases *)

Lemma running_income_after_snoc (start : Q) (pre : list recommendation)
    (rec : recommendation) :
  running_income_after start (pre ++ [rec])
  = running_income_after start pre
    + inject_Z (units_to_sell rec) * ord_of (rec_entry rec).
Proof.
  unfold running_income_after. now rewrite fold_left_app.
Qed.

Lemma running_loss_after_snoc (start : Q) (pre : list recommendation)
    (rec : recommendation) :
  running_loss_after start (pre ++ [rec])
  = running_loss_after start pre
    + inject_Z (units_to_sell rec) * py_abs (cap_of (rec_entry rec)).
Proof.
  unfold running_loss_after. now rewrite fold_left_app.
Qed.

(** Recommendations whose capital component is zero add nothing to the
    capital gain to offset. *)
Lemma cap_gain_sum_zero (recs : list recommendation) :
  forall acc : Q,
  Forall (fun rec => cap_of (rec_entry rec) == 0) recs ->
  fold_left
    (fun acc rec => acc + cap_of (rec_entry rec) * inject_Z (units_to_sell rec))
    recs acc == acc.
Proof.
  induction recs as [|rec rest IH]; intros acc Hzero; simpl; [reflexivity|].
  apply Forall_cons in Hzero. destruct Hzero as [Hrec Hrest].
  rewrite (IH _ Hrest). rewrite Hrec. lra.
Qed.

Lemma total_cap_gain_zero (recs : list recommendation) :
  Forall (fun rec => cap_of (rec_entry rec) == 0) recs ->
  total_cap_gain recs == 0.
Proof.
  apply cap_gain_sum_zero.
Qed.

Section PhaseInvariants.

Variable get_stock_price : string -> date -> bool -> option Q.
Variable get_fx_rate : date -> option Q.
Variable today : date.

Local Abbreviation run := (allocate get_stock_price get_fx_rate today).
Local Abbreviation run1 := (phase1 get_stock_price get_fx_rate today).
Local Abbreviation run2 := (phase2 get_stock_price get_fx_rate today).



(** C8. When the target ceiling is at or below the current income, the
    income room is clamped to 0, phase 1 selects nothing, and the optimizer
    still returns: an empty list of recommendations and an empty result
    table, whatever the market data. *)
Theorem no_income_room_is_not_an_error
    (rsu_data : list Grant) (current_income target_bracket_limit : Q) :
  target_bracket_limit <= current_income ->
  income_room target_bracket_limit current_income = 0
  /\ run1 rsu_data current_income target_bracket_limit = Ok []
  /\ recommendations get_stock_price get_fx_rate today
       rsu_data current_income target_bracket_limit = Ok []
  /\ optimize_rsu_sales get_stock_price get_fx_rate today
       rsu_data current_income target_bracket_limit = Ok [].
Proof.
  intros Hroom.
  destruct (allocate_spec get_stock_price get_fx_rate today rsu_data
              current_income target_bracket_limit)
    as (processed & recs1 & recs2 & _ & Hrun & Hsteps1 & _ & Hsteps2 & _).
  assert (E1 : recs1 = []).
  { destruct recs1 as [|rec post]; [reflexivity|].
    destruct (Hsteps1 [] rec post eq_refl) as (_ & _ & Hpos & _).
    simpl in Hpos. lra. }
  subst recs1.
  assert (E2 : recs2 = []).
  { destruct recs2 as [|rec post]; [reflexivity|].
    destruct (Hsteps2 [] rec post eq_refl) as (_ & _ & Hpos & _).
    unfold total_cap_gain in Hpos. simpl in Hpos. lra. }
  subst recs2.
  split.
  { unfold income_room.
    assert (E : Qle_bool (target_bracket_limit - current_income) 0 = true)
      by (apply Qle_bool_iff; lra).
    now rewrite E. }
  split; [unfold phase1; now rewrite Hrun|].
  assert (Hrecs : recommendations get_stock_price get_fx_rate today
                    rsu_data current_income target_bracket_limit = Ok []).
  { unfold recommendations. now rewrite Hrun. }
  split; [exact Hrecs|].
  unfold optimize_rsu_sales, sale_plan. now rewrite Hrecs.
Qed.

(** The optimizer returns a table on every input: no division it performs
    has a zero divisor. *)
Lemma optimize_rsu_sales_returns
    (rsu_data : list Grant) (current_income target_bracket_limit : Q) :
  exists rows,
    optimize_rsu_sales get_stock_price get_fx_rate today
      rsu_data current_income target_bracket_limit = Ok rows.
Proof.
  destruct (allocate_spec get_stock_price get_fx_rate today rsu_data
              current_income target_bracket_limit)
    as (processed & recs1 & recs2 & _ & Hrun & _).
  unfold optimize_rsu_sales, sale_plan, recommendations. rewrite Hrun.
  simpl. eauto.
Qed.

(** C10. If phase 1 recommends nothing, or only grants whose capital
    component is 0, or more generally realizes no strictly positive capital
    gain, the capital gain to offset is not positive and phase 2 recommends
    nothing. *)
Theorem no_gain_no_loss_harvest
    (rsu_data : list Grant) (current_income target_bracket_limit : Q)
    (recs1 : list recommendation) :
  run1 rsu_data current_income target_bracket_limit = Ok recs1 ->
  recs1 = []
  \/ Forall (fun rec => cap_of (rec_entry rec) == 0) recs1
  \/ total_cap_gain recs1 <= 0 ->
  total_cap_gain recs1 <= 0
  /\ run2 rsu_data current_income target_bracket_limit = Ok [].
Proof.
  intros Hrun1 Hzero.
  assert (Htotal : total_cap_gain recs1 <= 0).
  { destruct Hzero as [->|[H|H]]; [|apply total_cap_gain_zero in H|]; try lra.
    unfold total_cap_gain. simpl. lra. }
  destruct (allocate_spec get_stock_price get_fx_rate today rsu_data
              current_income target_bracket_limit)
    as (processed & recs1' & recs2 & _ & Hrun & _ & _ & Hsteps2 & _).
  unfold phase1 in Hrun1. rewrite Hrun in Hrun1. simpl in Hrun1.
  injection Hrun1 as ->.
  split; [lra|].
  unfold phase2. rewrite Hrun. simpl.
  destruct recs2 as [|rec post]; [reflexivity|].
  destruct (Hsteps2 [] rec post eq_refl) as (_ & _ & Hpos & _).
  simpl in Hpos. lra.
Qed.

End PhaseInvariants.

(** ** Units recommended per grant *)

Lemma sublist_In {A : Type} (l k : list A) (x : A) :
  sublist l k -> In x l -> In x k.
Proof.
  induction 1; simpl; intuition.
Qed.

Lemma submseteq_map {A B : Type} (f : A -> B) (l k : list A) :
  l ⊆+ k -> List.map f l ⊆+ List.map f k.
Proof.
  induction 1; simpl.
  - constructor.
  - now apply submseteq_skip.
  - apply submseteq_swap.
  - now apply submseteq_cons.
  - etransitivity; eassumption.
Qed.

Lemma count_occ_submseteq (l k : list Grant) (g : Grant) :
  l ⊆+ k ->
  (count_occ Grant_eq_dec l g <= count_occ Grant_eq_dec k g)%nat.
Proof.
  induction 1; simpl;
    repeat match goal with
           | |- context [Grant_eq_dec ?a ?b] => destruct (Grant_eq_dec a b)
           end; lia.
Qed.

Lemma units_recommended_le (g : Grant) (recs : list recommendation) :
  Forall (fun rec => (units_to_sell rec <= number_of_units (grant_of rec))%Z)
    recs ->
  (units_recommended g recs
   <= Z.of_nat (count_occ Grant_eq_dec (List.map grant_of recs) g)
      * number_of_units g)%Z.
Proof.
  induction 1 as [|rec rest Hrec _ IH]; simpl; [lia|].
  destruct (Grant_eq_dec (grant_of rec) g) as [<-|_]; [|lia].
  rewrite Nat2Z.inj_succ, Z.mul_succ_l. lia.
Qed.

Section UnitsPerGrant.

Variable get_stock_price : string -> date -> bool -> option Q.
Variable get_fx_rate : date -> option Q.
Variable today : date.

(** A grant resolves to one set of components, so no grant is both a
    phase-1 candidate and a loss candidate. *)
Lemma candidates_disjoint (processed : list resolved) (g1 g2 : resolved) :
  Forall (fun g => get_tax_components get_stock_price get_fx_rate
                     (r_grant g) today = Some (r_components g)) processed ->
  In g1 (s102_gains processed) -> In g2 (cap_losses processed) ->
  r_grant g1 <> r_grant g2.
Proof.
  intros Hres H1 H2 Heq.
  unfold s102_gains in H1.
  apply (Permutation_in _ (sorted_desc_perm _)) in H1.
  apply filter_In in H1. destruct H1 as [Hin1 Hgain].
  unfold cap_losses in H2. apply filter_In in H2. destruct H2 as [Hin2 Hloss].
  rewrite List.Forall_forall in Hres.
  pose proof (Hres _ Hin1) as R1. pose proof (Hres _ Hin2) as R2.
  rewrite Heq, R2 in R1. injection R1 as Hc.
  apply gain_is_not_loss in Hgain.
  unfold is_cap_loss, cap_of in Hgain, Hloss. rewrite Hc in Hloss. congruence.
Qed.

(** C7. Every recommendation of a run sells a positive number of units, at
    most the grant's unit count; the recommended grants are distinct rows of
    the input, so the units recommended for a grant, summed over the run,
    stay within its unit count (times the number of rows equal to it); and
    no grant is recommended by both phases. *)
Theorem units_within_grant
    (rsu_data : list Grant) (current_income target_bracket_limit : Q) :
  exists recs1 recs2,
    allocate get_stock_price get_fx_rate today
      rsu_data current_income target_bracket_limit = Ok (recs1, recs2)
    /\ recommendations get_stock_price get_fx_rate today
         rsu_data current_income target_bracket_limit = Ok (recs1 ++ recs2)
    /\ Forall (fun rec =>
                 (0 < units_to_sell rec <= number_of_units (grant_of rec))%Z)
         (recs1 ++ recs2)
    /\ List.map grant_of (recs1 ++ recs2) ⊆+ rsu_data
    /\ Forall (fun rec =>
                 (units_recommended (grant_of rec) (recs1 ++ recs2)
                  <= Z.of_nat (count_occ Grant_eq_dec rsu_data (grant_of rec))
                     * number_of_units (grant_of rec))%Z)
         (recs1 ++ recs2)
    /\ Forall (fun rec1 =>
                 Forall (fun rec2 => grant_of rec1 <> grant_of rec2) recs2)
         recs1.
Proof.
  destruct (allocate_spec get_stock_price get_fx_rate today rsu_data
              current_income target_bracket_limit)
    as (processed & recs1 & recs2 & Hp & Hrun & Hsteps1 & Hsub1 & Hsteps2 & Hsub2).
  destruct (grants_to_process_spec get_stock_price get_fx_rate today rsu_data)
    as (processed' & Hp' & Hrows & Hres).
  rewrite Hp in Hp'. injection Hp' as <-.
  exists recs1, recs2.
  assert (Hbounds : Forall (fun rec =>
            (0 < units_to_sell rec <= number_of_units (grant_of rec))%Z)
            (recs1 ++ recs2)).
  { apply List.Forall_app. split; apply List.Forall_forall; intros rec Hin;
      apply in_split in Hin; destruct Hin as (pre & post & Hsplit).
    - now destruct (Hsteps1 pre rec post Hsplit) as (Hunits & _).
    - now destruct (Hsteps2 pre rec post Hsplit) as (Hunits & _). }
  assert (Hrowsof : List.map grant_of (recs1 ++ recs2) ⊆+ rsu_data).
  { transitivity (List.map r_grant processed);
      [|now apply sublist_submseteq].
    unfold grant_of. rewrite <- (List.map_map rec_entry r_grant).
    apply submseteq_map. rewrite List.map_app.
    transitivity (List.filter is_s102_gain processed
                  ++ List.filter is_cap_loss processed).
    - apply submseteq_app.
      + rewrite <- (sorted_desc_perm (List.filter is_s102_gain processed)).
        now apply sublist_submseteq.
      + now apply sublist_submseteq.
    - apply filter_disjoint_submseteq. exact gain_is_not_loss. }
  split; [exact Hrun|]. split; [unfold recommendations; now rewrite Hrun|].
  split; [exact Hbounds|]. split; [exact Hrowsof|]. split.
  - apply List.Forall_forall. intros rec Hin.
    rewrite List.Forall_forall in Hbounds.
    pose proof (Hbounds rec Hin) as Hrec.
    etransitivity.
    + apply units_recommended_le. apply List.Forall_forall.
      intros rec' Hin'. apply (Hbounds rec' Hin').
    + apply Z.mul_le_mono_nonneg_r; [lia|].
      apply inj_le. now apply count_occ_submseteq.
  - apply List.Forall_forall. intros rec1 Hin1.
    apply List.Forall_forall. intros rec2 Hin2.
    apply (candidates_disjoint processed (rec_entry rec1) (rec_entry rec2) Hres).
    + apply (sublist_In _ _ _ Hsub1). now apply in_map.
    + apply (sublist_In _ _ _ Hsub2). now apply in_map.
Qed.

End UnitsPerGrant.

(** ** The end-to-end scenario *)

Section Scenario.

Variable get_stock_price : string -> date -> bool -> option Q.
Variable get_fx_rate : date -> option Q.
Variable today : date.

(** The scenario, from the market values behind the components: a base
    value of 175 and a sale value 395 above it. *)
Lemma scenario_from_market_data
    (grant : Grant) (sp sfx gp gfx : Q) :
  section_102 grant = CAPITAL_GAINS_ROUTE ->
  number_of_units grant = 100%Z ->
  date_ltb today (add_months (grant_date grant) 24) = false ->
  available (get_stock_price (stock_code grant) today false) sp ->
  available (get_fx_rate today) sfx ->
  available (get_stock_price (stock_code grant) (grant_date grant) true) gp ->
  available (get_fx_rate (grant_date grant)) gfx ->
  gp * gfx == 175 ->
  sp * sfx - gp * gfx == 395 ->
  exists c b,
    get_tax_components get_stock_price get_fx_rate grant today = Some c
    /\ ordinary_per_share c == 175
    /\ capital_per_share c == 395
    /\ sale_plan get_stock_price get_fx_rate today [grant] 100000 269280
       = Ok [b]
    /\ grant_of (b_rec b) = grant
    /\ r_components (rec_entry (b_rec b)) = c
    /\ units_to_sell (b_rec b) = 100%Z
    /\ b_units b = 100%Z
    /\ ord_total b == 17500
    /\ cap_total b == 39500
    /\ income_tax b == 2450
    /\ cgt b == 9875
    /\ net_proceeds b == 44675
    /\ optimize_rsu_sales get_stock_price get_fx_rate today [grant]
         100000 269280 = Ok [final_row b].
Proof.
  intros Hroute Hunits Hheld Hsp Hsfx Hgp Hgfx Hbase Hcap.
  pose proof (get_tax_components_capital_gains_route get_stock_price
                get_fx_rate grant today sp sfx gp gfx
                Hroute Hsp Hsfx Hgp Hgfx) as Hres.
  cbv zeta in Hres. rewrite Hheld in Hres.
  remember (sp * sfx) as sale eqn:Esale.
  remember (gp * gfx) as base eqn:Ebase.
  destruct (py_min_spec base sale) as [[Hlt _]|[_ Emin]]; [lra|].
  destruct (py_max_spec 0 (sale - base)) as [[_ Emax]|[Hle _]]; [|lra].
  assert (Enote : Qltb sale base = false) by (apply Qltb_ge; lra).
  rewrite Emin, Emax, Enote in Hres.
  set (c := mkComponents base (sale - base) sale base sp gp NOTE_CAPITAL_GAINS)
    in *.
  assert (Heff : compute_efficiency c = Ok (Fin ((sale - base) / base))).
  { unfold compute_efficiency. simpl.
    assert (E1 : Qltb 0 base = true) by (apply Qltb_lt; lra).
    assert (E2 : Qltb 0 (sale - base) = true) by (apply Qltb_lt; lra).
    rewrite E1, E2. simpl. rewrite py_div_ok by lra. reflexivity. }
  set (e := mkResolved grant c (Fin ((sale - base) / base))).
  assert (Hgain : is_s102_gain e = true).
  { unfold is_s102_gain, cap_of, ord_of. simpl.
    assert (E1 : Qle_bool 0 (sale - base) = true) by (apply Qle_bool_iff; lra).
    assert (E2 : Qltb 0 base = true) by (apply Qltb_lt; lra).
    now rewrite E1, E2. }
  assert (Hloss : is_cap_loss e = false).
  { now apply gain_is_not_loss. }
  assert (Hphase1 : gains_phase 269280 [e] 100000
                    = Ok ([mkRecommendation e 100],
                          100000 + inject_Z 100 * base)).
  { simpl gains_phase. change (ord_of e) with base.
    change (units_of e) with (number_of_units grant).
    assert (E1 : Qle_bool base 0 = false) by (apply Qle_bool_gt; lra).
    rewrite E1, py_div_ok by lra. cbn [bind].
    assert (E3 : py_int ((269280 - 100000) / base) = 967%Z).
    { rewrite py_int_floor.
      - rewrite (Qfloor_comp _ ((269280 - 100000) / 175)); [reflexivity|].
        now rewrite Hbase.
      - apply Qle_shift_div_l; lra. }
    rewrite E3, Hunits. reflexivity. }
  set (rec := mkRecommendation e 100).
  assert (Hrecs : recommendations get_stock_price get_fx_rate today [grant]
                    100000 269280 = Ok [rec]).
  { unfold recommendations, allocate. cbn [grants_to_process].
    rewrite Hres, Heff. cbn [bind].
    unfold s102_gains, cap_losses. cbn [List.filter]. fold e.
    rewrite Hgain, Hloss. cbn [sorted_desc fold_right insert_desc].
    rewrite Hphase1. reflexivity. }
  set (b := mkBreakdown rec 100 (base * inject_Z 100)
              ((sale - base) * inject_Z 100)
              (calc_progressive_tax ISRAELI_TAX_BRACKETS_2025 100000
                 (base * inject_Z 100))
              (py_max 0 ((sale - base) * inject_Z 100) * CAPITAL_GAINS_RATE)
              (calc_progressive_tax ISRAELI_TAX_BRACKETS_2025 100000
                 (base * inject_Z 100)
               + py_max 0 ((sale - base) * inject_Z 100) * CAPITAL_GAINS_RATE)
              (sale * inject_Z 100
               - (calc_progressive_tax ISRAELI_TAX_BRACKETS_2025 100000
                    (base * inject_Z 100)
                  + py_max 0 ((sale - base) * inject_Z 100)
                    * CAPITAL_GAINS_RATE))).
  assert (Hplan : sale_plan get_stock_price get_fx_rate today [grant]
                    100000 269280 = Ok [b]).
  { unfold sale_plan. rewrite Hrecs. reflexivity. }
  assert (Hord : base * inject_Z 100 == 17500) by (rewrite Hbase; reflexivity).
  assert (Hcapt : (sale - base) * inject_Z 100 == 39500)
    by (rewrite Hcap; reflexivity).
  assert (Htax : calc_progressive_tax ISRAELI_TAX_BRACKETS_2025 100000
                   (base * inject_Z 100) == 2450).
  { rewrite Hord. vm_compute. reflexivity. }
  assert (Hcgt : py_max 0 ((sale - base) * inject_Z 100) * CAPITAL_GAINS_RATE
                 == 9875).
  { rewrite Hcapt. vm_compute. reflexivity. }
  assert (Hsale : sale * inject_Z 100 == 57000).
  { assert (E : sale == 570) by lra. rewrite E. reflexivity. }
  exists c, b.
  split; [exact Hres|]. split; [exact Hbase|]. split; [exact Hcap|].
  split; [exact Hplan|]. split; [reflexivity|]. split; [reflexivity|].
  split; [reflexivity|]. split; [reflexivity|].
  split; [exact Hord|]. split; [exact Hcapt|]. split; [exact Htax|].
  split; [exact Hcgt|]. split.
  - simpl. rewrite Hsale, Htax, Hcgt. reflexivity.
  - unfold optimize_rsu_sales. rewrite Hplan. reflexivity.
Qed.

(** C1. One grant on the Capital Gains Route, held at least 24 months, with
    a per-share ordinary component of 175 and capital component of 395, 100
    units, a current income of 100000 and a ceiling of 269280: the optimizer
    recommends exactly 100 units, with ordinary total 17500, capital total
    39500, income tax 2450 under the 2025 brackets and net proceeds 44675. *)
Theorem capital_gains_route_scenario (grant : Grant) (c : components) :
  section_102 grant = CAPITAL_GAINS_ROUTE ->
  date_ltb today (add_months (grant_date grant) 24) = false ->
  number_of_units grant = 100%Z ->
  get_tax_components get_stock_price get_fx_rate grant today = Some c ->
  ordinary_per_share c == 175 ->
  capital_per_share c == 395 ->
  exists b,
    sale_plan get_stock_price get_fx_rate today [grant] 100000 269280 = Ok [b]
    /\ optimize_rsu_sales get_stock_price get_fx_rate today [grant]
         100000 269280 = Ok [final_row b]
    /\ grant_of (b_rec b) = grant
    /\ r_components (rec_entry (b_rec b)) = c
    /\ units_to_sell (b_rec b) = 100%Z
    /\ Units_to_Sell (final_row b) = 100%Z
    /\ ord_total b == 17500
    /\ cap_total b == 39500
    /\ income_tax b
       == calc_progressive_tax ISRAELI_TAX_BRACKETS_2025 100000 17500
    /\ income_tax b == 2450
    /\ cgt b == 9875
    /\ net_proceeds b == 44675.
Proof.
  intros Hroute Hheld Hunits Hres Hord Hcap.
  destruct (get_tax_components_Some_available get_stock_price get_fx_rate
              grant today c Hres)
    as (sp & sfx & gp & gfx & Hsp & Hsfx & Hgp & Hgfx).
  pose proof (get_tax_components_capital_gains_route get_stock_price
                get_fx_rate grant today sp sfx gp gfx
                Hroute Hsp Hsfx Hgp Hgfx) as Hshape.
  cbv zeta in Hshape. rewrite Hheld, Hres in Hshape. injection Hshape as Hc.
  rewrite Hc in Hord, Hcap. simpl in Hord, Hcap.
  destruct (py_max_spec 0 (sp * sfx - gp * gfx)) as [[Hgain Emax]|[_ Emax]];
    rewrite Emax in Hcap; [|lra].
  destruct (py_min_spec (gp * gfx) (sp * sfx)) as [[Hlt _]|[_ Emin]]; [lra|].
  rewrite Emin in Hord.
  destruct (scenario_from_market_data grant sp sfx gp gfx
              Hroute Hunits Hheld Hsp Hsfx Hgp Hgfx Hord Hcap)
    as (c' & b & Hres' & _ & _ & Hplan & Hg & Hcomp & Hu & Hbu & Hot & Hct
        & Htax & Hcgt & Hnet & Hrows).
  rewrite Hres in Hres'. injection Hres' as <-.
  exists b. split; [exact Hplan|]. split; [exact Hrows|].
  split; [exact Hg|]. split; [exact Hcomp|]. split; [exact Hu|].
  split; [exact Hbu|]. split; [exact Hot|]. split; [exact Hct|].
  split; [|auto].
  rewrite Htax. vm_compute. reflexivity.
Qed.

End Scenario.

(** ** The scenarios, evaluated *)

Ltac available_here := split; [reflexivity | unfold Qeq; simpl; lia].

(** [test_section_102_capital_gain], with the formatted columns. *)
Example test_section_102_capital_gain :
  optimize_rsu_sales gain_price gain_fx test_today
    [test_grant "Capital Gains Route"] 100000 269280
  = Ok [ {| Company := "TestCorp";
            Grant_Date := mkDate 2022 1 1;
            Grant_Price_NIS_sh := "175.00 (50.00$)";
            Units_to_Sell := 100;
            Sale_Price_NIS_sh := "570.00 (150.00$)";
            Ordinary_NIS_sh := "175.00";
            Capital_Gain_NIS_sh := "395.00";
            Ordinary_Total_NIS := "17,500.00";
            Capital_Gain_Total_NIS := "39,500.00";
            Income_Tax_NIS := "2,450.00";
            Capital_Gains_Tax_NIS := "9,875.00";
            Total_Tax_NIS := "12,325.00";
            Net_Proceeds_NIS := "44,675.00";
            Note := "§102 Capital Gains Route" |} ].
Proof. vm_compute. reflexivity. Qed.

(** [test_non_section_102]: nothing is recommended. *)
Example test_non_section_102 :
  optimize_rsu_sales vest_price vest_fx test_today
    [test_grant "Not Capital Gains Route"] 100000 269280 = Ok [].
Proof. vm_compute. reflexivity. Qed.

(** [test_negative_capital_gain]: units, ordinary total and net proceeds. *)
Example test_negative_capital_gain :
  List.map (fun row => (Units_to_Sell row, Ordinary_Total_NIS row,
                        Capital_Gain_Total_NIS row, Income_Tax_NIS row,
                        Net_Proceeds_NIS row))
    <$> match optimize_rsu_sales underwater_price gain_fx test_today
                [test_grant "Capital Gains Route"] 100000 269280 with
        | Ok rows => Some rows
        | Raise _ => None
        end
  = Some [(100%Z, "15,200.00", "0.00", "2,128.00", "13,072.00")%string].
Proof. vm_compute. reflexivity. Qed.

(** A loss off the route is harvested against a gain on the route. *)
Example loss_harvested_against_gain :
  List.map (fun rec => (section_102 (grant_of rec), units_to_sell rec))
    <$> match recommendations harvest_price vest_fx test_today mixed_grants
                100000 269280 with
        | Ok recs => Some recs
        | Raise _ => None
        end
  = Some [("Capital Gains Route"%string, 100%Z);
          ("Not Capital Gains Route"%string, 100%Z)].
Proof. vm_compute. reflexivity. Qed.

Lemma capital_gains_route_scenario_witness :
  exists b,
    sale_plan gain_price gain_fx test_today
      [test_grant "Capital Gains Route"] 100000 269280 = Ok [b]
    /\ optimize_rsu_sales gain_price gain_fx test_today
         [test_grant "Capital Gains Route"] 100000 269280 = Ok [final_row b]
    /\ grant_of (b_rec b) = test_grant "Capital Gains Route"
    /\ r_components (rec_entry (b_rec b))
       = mkComponents (50 * 3.5) (150 * 3.8 - 50 * 3.5) (150 * 3.8) (50 * 3.5)
           150 50 NOTE_CAPITAL_GAINS
    /\ units_to_sell (b_rec b) = 100%Z
    /\ Units_to_Sell (final_row b) = 100%Z
    /\ ord_total b == 17500
    /\ cap_total b == 39500
    /\ income_tax b
       == calc_progressive_tax ISRAELI_TAX_BRACKETS_2025 100000 17500
    /\ income_tax b == 2450
    /\ cgt b == 9875
    /\ net_proceeds b == 44675.
Proof.
  apply (capital_gains_route_scenario gain_price gain_fx test_today
           (test_grant "Capital Gains Route")).
  - reflexivity.
  - reflexivity.
  - reflexivity.
  - reflexivity.
  - reflexivity.
  - reflexivity.
Defined.

Lemma underwater_is_ordinary_income_only_witness :
  exists c,
    get_tax_components underwater_price gain_fx
      (test_grant "Capital Gains Route") test_today = Some c
    /\ capital_per_share c = 0
    /\ ordinary_per_share c = 40 * 3.8
    /\ sale_price_nis c = 40 * 3.8
    /\ grant_price_nis c = 50 * 3.5.
Proof.
  apply (underwater_is_ordinary_income_only underwater_price gain_fx
           (test_grant "Capital Gains Route") test_today 40 3.8 50 3.5).
  - reflexivity.
  - reflexivity.
  - available_here.
  - available_here.
  - available_here.
  - available_here.
  - reflexivity.
Defined.

Lemma early_sale_is_all_ordinary_witness :
  exists c,
    get_tax_components gain_price gain_fx
      (test_grant "Capital Gains Route") (mkDate 2023 12 31) = Some c
    /\ ordinary_per_share c = 150 * 3.8
    /\ capital_per_share c = 0
    /\ sale_price_nis c = 150 * 3.8.
Proof.
  apply (early_sale_is_all_ordinary gain_price gain_fx
           (test_grant "Capital Gains Route") (mkDate 2023 12 31)
           150 3.8 50 3.5).
  - reflexivity.
  - reflexivity.
  - available_here.
  - available_here.
  - available_here.
  - available_here.
Defined.

Lemma zero_value_fails_like_missing_data_witness :
  get_tax_components zero_price gain_fx
    (test_grant "Capital Gains Route") test_today = None
  /\ get_tax_components
       (fun t d a => zero_as_missing (zero_price t d a))
       (fun d => zero_as_missing (gain_fx d))
       (test_grant "Capital Gains Route") test_today = None
  /\ forall rest,
       grants_to_process zero_price gain_fx test_today
         (test_grant "Capital Gains Route" :: rest)
       = grants_to_process zero_price gain_fx test_today rest.
Proof.
  apply (zero_value_fails_like_missing_data zero_price gain_fx
           (test_grant "Capital Gains Route") test_today).
  apply List.Exists_cons_hd. exists 0. split; reflexivity.
Defined.

Lemma no_income_room_is_not_an_error_witness :
  84120 <= 100000
  /\ income_room 84120 100000 = 0
  /\ phase1 gain_price gain_fx test_today
       [test_grant "Capital Gains Route"] 100000 84120 = Ok []
  /\ recommendations gain_price gain_fx test_today
       [test_grant "Capital Gains Route"] 100000 84120 = Ok []
  /\ optimize_rsu_sales gain_price gain_fx test_today
       [test_grant "Capital Gains Route"] 100000 84120 = Ok [].
Proof.
  assert (H : 84120 <= 100000) by (unfold Qle; simpl; lia).
  split; [exact H|].
  apply (no_income_room_is_not_an_error gain_price gain_fx test_today
           [test_grant "Capital Gains Route"] 100000 84120 H).
Defined.

Lemma no_gain_no_loss_harvest_witness :
  exists rec,
    phase1 loss_price vest_fx test_today mixed_grants 100000 269280 = Ok [rec]
    /\ cap_of (rec_entry rec) == 0
    /\ total_cap_gain [rec] <= 0
    /\ phase2 loss_price vest_fx test_today mixed_grants 100000 269280 = Ok [].
Proof.
  eexists. split; [vm_compute; reflexivity|]. split; [reflexivity|].
  apply (no_gain_no_loss_harvest loss_price vest_fx test_today mixed_grants
           100000 269280).
  - vm_compute. reflexivity.
  - right. left. constructor; [reflexivity|constructor].
Defined.



Lemma units_within_grant_witness :
  exists rec1 rec2,
    recommendations harvest_price vest_fx test_today mixed_grants
      100000 269280 = Ok [rec1; rec2]
    /\ grant_of rec1 <> grant_of rec2
    /\ (units_recommended (grant_of rec1) [rec1; rec2] <= 100)%Z
    /\ (units_recommended (grant_of rec2) [rec1; rec2] <= 100)%Z.
Proof.
  destruct (units_within_grant harvest_price vest_fx test_today
              mixed_grants 100000 269280)
    as (recs1 & recs2 & Hrun & Hrecs & _ & _ & Hsum & Hdisj).
  assert (E : exists rec1 rec2,
            allocate harvest_price vest_fx test_today mixed_grants
              100000 269280 = Ok ([rec1], [rec2])
            /\ grant_of rec1 = test_grant "Capital Gains Route"
            /\ grant_of rec2 = test_grant "Not Capital Gains Route").
  { do 2 eexists. split; [vm_compute; reflexivity|split; reflexivity]. }
  destruct E as (rec1 & rec2 & E & Hg1 & Hg2). rewrite E in Hrun.
  injection Hrun as <- <-.
  exists rec1, rec2. split; [exact Hrecs|].
  apply Forall_cons in Hdisj. destruct Hdisj as [Hdisj _].
  apply Forall_cons in Hdisj. destruct Hdisj as [Hne _].
  split; [exact Hne|].
  apply Forall_cons in Hsum. destruct Hsum as [Hs1 Hsum].
  apply Forall_cons in Hsum. destruct Hsum as [Hs2 _].
  simpl app in Hs1, Hs2. rewrite Hg1 in Hs1 at 2 3. rewrite Hg2 in Hs2 at 2 3.
  split; [exact Hs1|exact Hs2].
Defined.

(** * Further properties of the code *)

(** ** Bracket tax calculator: bounds and rates *)

Lemma tax_on_income_from_shift (brackets : list bracket) :
  forall (income tax : Q) (previous_limit : xnum),
    tax_on_income_from income brackets tax previous_limit
    == tax + tax_on_income_from income brackets 0 previous_limit.
Proof.
  induction brackets as [|[limit rate] rest IH]; intros income tax prev; simpl.
  - lra.
  - destruct prev as [p|]; [|lra].
    destruct (Qltb p income); [|lra].
    rewrite (IH income (tax + _)), (IH income (0 + _)). lra.
Qed.

(** At or below the previous limit the loop stops at once. *)
Lemma tax_on_income_from_below (brackets : list bracket) (income tax p : Q) :
  income <= p ->
  tax_on_income_from income brackets tax (Fin p) = tax.
Proof.
  intros H. destruct brackets as [|[limit rate] rest]; simpl; [reflexivity|].
  apply Qltb_ge in H. now rewrite H.
Qed.

Lemma tax_on_income_from_inf (brackets : list bracket) (income tax : Q) :
  tax_on_income_from income brackets tax PInf = tax.
Proof.
  now destruct brackets as [|[limit rate] rest].
Qed.

Lemma rate_scaling (lo hi r d : Q) :
  0 <= d -> lo <= r -> r <= hi -> lo * d <= d * r /\ d * r <= hi * d.
Proof.
  intros. split; nra.
Qed.

(** The tax between two incomes, for a table whose limits increase from
    [p] and whose rates lie in [[lo, hi]]. *)
Lemma tax_slice_bounds (lo hi : Q) (brackets : list bracket) :
  0 <= lo ->
  forall p : Q,
    limits_increasing_from p brackets = true ->
    rates_between lo hi brackets = true ->
    forall i i' : Q, i <= i' ->
      0 <= tax_on_income_from i' brackets 0 (Fin p)
           - tax_on_income_from i brackets 0 (Fin p)
      /\ tax_on_income_from i' brackets 0 (Fin p)
         - tax_on_income_from i brackets 0 (Fin p) <= hi * (i' - i)
      /\ (p <= i ->
          lo * (i' - i)
          <= tax_on_income_from i' brackets 0 (Fin p)
             - tax_on_income_from i brackets 0 (Fin p)).
Proof.
  intros Hlo. induction brackets as [|[limit rate] rest IH];
    intros p Hlim Hrates i i' Hii; [discriminate Hlim|].
  simpl in Hrates. apply andb_true_iff in Hrates. destruct Hrates as [Hr Hrates].
  apply andb_true_iff in Hr. destruct Hr as [Hr1 Hr2].
  apply Qle_bool_iff in Hr1, Hr2. simpl in Hr1, Hr2.
  destruct limit as [l|].
  - simpl in Hlim. apply andb_true_iff in Hlim. destruct Hlim as [Hpl Hlim].
    apply Qltb_lt in Hpl.
    pose proof (IH l Hlim Hrates) as HG.
    set (G := fun j => tax_on_income_from j rest 0 (Fin l)) in *.
    assert (HG0 : forall j, j <= l -> G j = 0).
    { intros j Hj. apply tax_on_income_from_below. exact Hj. }
    assert (HF : forall j,
      (j <= p /\ tax_on_income_from j ((Fin l, rate) :: rest) 0 (Fin p) == 0)
      \/ (p < j /\ j <= l
          /\ tax_on_income_from j ((Fin l, rate) :: rest) 0 (Fin p)
             == (j - p) * rate)
      \/ (l < j
          /\ tax_on_income_from j ((Fin l, rate) :: rest) 0 (Fin p)
             == (l - p) * rate + G j)).
    { intros j. simpl. destruct (Qltb p j) eqn:Epj.
      - apply Qltb_lt in Epj. destruct (Qlt_le_dec l j) as [Hlj|Hjl].
        + right. right. split; [exact Hlj|].
          rewrite tax_on_income_from_shift. fold (G j).
          destruct (py_min_spec (j - p) (l - p)) as [[_ ->]|[Hle _]]; lra.
        + right. left. split; [exact Epj|]. split; [exact Hjl|].
          rewrite (tax_on_income_from_below rest j _ l Hjl).
          destruct (py_min_spec (j - p) (l - p)) as [[Hlt _]|[_ ->]]; lra.
      - apply Qltb_ge in Epj. left. split; [exact Epj|reflexivity]. }
    assert (HGl : forall j, l <= j ->
              0 <= G j /\ G j <= hi * (j - l) /\ lo * (j - l) <= G j).
    { intros j Hj. destruct (HG l j Hj) as (H1 & H2 & H3).
      fold (G j) (G l) in H1, H2, H3. rewrite (HG0 l) in * by lra.
      specialize (H3 (Qle_refl l)). lra. }
    destruct (HF i) as [[Hi Ei]|[[Hi1 [Hi2 Ei]]|[Hi Ei]]];
      destruct (HF i') as [[Hi' Ei']|[[Hi1' [Hi2' Ei']]|[Hi' Ei']]];
      rewrite Ei, Ei'; try lra.
    + split; [lra|]. split; [nra|]. intros Hp.
      assert (E : i' - i == 0) by lra. rewrite E. lra.
    + destruct (rate_scaling lo hi rate (i' - p)) as [S1 S2]; try lra.
      split; [nra|]. split; [nra|]. intros Hp. nra.
    + destruct (HGl i') as (H1 & H2 & H3); [lra|].
      destruct (rate_scaling lo hi rate (l - p)) as [S1 S2]; try lra.
      split; [nra|]. split; [nra|]. intros Hp. nra.
    + destruct (rate_scaling lo hi rate (i' - i)) as [S1 S2]; try lra.
      split; [nra|]. split; [nra|]. intros Hp. nra.
    + destruct (HGl i') as (H1 & H2 & H3); [lra|].
      destruct (rate_scaling lo hi rate (l - i)) as [S1 S2]; try lra.
      split; [nra|]. split; [nra|]. intros Hp. nra.
    + destruct (HG i i' Hii) as (H1 & H2 & H3). unfold G.
      split; [lra|]. split; [lra|]. intros Hp.
      assert (Hl : l <= i) by lra. specialize (H3 Hl). lra.
  - simpl in Hlim. destruct rest as [|? ?]; [|discriminate Hlim].
    assert (HF : forall j,
      (j <= p /\ tax_on_income_from j [(PInf, rate)] 0 (Fin p) == 0)
      \/ (p < j /\ tax_on_income_from j [(PInf, rate)] 0 (Fin p)
                   == (j - p) * rate)).
    { intros j. simpl. destruct (Qltb p j) eqn:Epj.
      - apply Qltb_lt in Epj. right. split; [exact Epj|lra].
      - apply Qltb_ge in Epj. left. split; [exact Epj|reflexivity]. }
    destruct (HF i) as [[Hi Ei]|[Hi Ei]];
      destruct (HF i') as [[Hi' Ei']|[Hi' Ei']];
      rewrite Ei, Ei'; try lra.
    + split; [lra|]. split; [nra|]. intros Hp.
      assert (E : i' - i == 0) by lra. rewrite E. lra.
    + destruct (rate_scaling lo hi rate (i' - p)) as [S1 S2]; try lra.
      split; [nra|]. split; [nra|]. intros Hp. nra.
    + destruct (rate_scaling lo hi rate (i' - i)) as [S1 S2]; try lra.
      split; [nra|]. split; [nra|]. intros Hp. nra.
Qed.

Lemma calc_progressive_tax_range
    (brackets : list bracket) (lo hi base x : Q) :
  limits_increasing_from 0 brackets = true ->
  rates_between lo hi brackets = true ->
  0 <= lo ->
  0 <= x ->
  0 <= calc_progressive_tax brackets base x
  /\ calc_progressive_tax brackets base x <= hi * x
  /\ (0 <= base -> lo * x <= calc_progressive_tax brackets base x).
Proof.
  intros Hlim Hrates Hlo Hx. unfold calc_progressive_tax, tax_on_income.
  destruct (Qle_bool x 0) eqn:Ex.
  - apply Qle_bool_iff in Ex. assert (E : x == 0) by lra. rewrite E.
    split; [lra|]. split; [lra|]. intros _. lra.
  - apply Qle_bool_gt in Ex.
    destruct (tax_slice_bounds lo hi brackets Hlo 0 Hlim Hrates
                base (base + x)) as (H1 & H2 & H3); [lra|].
    split; [exact H1|]. split; [lra|]. intros Hb. specialize (H3 Hb). lra.
Qed.



Lemma lower_edge_ge (pre rest : list bracket) :
  forall p lower : Q,
    limits_increasing_from p (pre ++ rest) = true ->
    lower_edge p pre = Fin lower ->
    p <= lower.
Proof.
  induction pre as [|[[l|] r] pre IH]; intros p lower Hlim Hedge; simpl in *.
  - injection Hedge as <-. lra.
  - apply andb_true_iff in Hlim. destruct Hlim as [Hpl Hlim].
    apply Qltb_lt in Hpl. specialize (IH l lower Hlim Hedge). lra.
  - discriminate Hedge.
Qed.

(** Total tax at an income inside the bracket that follows [pre]: a
    constant for the brackets below plus the bracket's rate on the part of
    the income above the bracket's lower edge. *)
Lemma tax_on_income_in_bracket
    (pre post : list bracket) (limit : xnum) (rate : Q) :
  forall p lower : Q,
    limits_increasing_from p (pre ++ (limit, rate) :: post) = true ->
    lower_edge p pre = Fin lower ->
    exists below : Q,
      forall tax income : Q,
        lower <= income -> xle income limit ->
        tax_on_income_from income (pre ++ (limit, rate) :: post) tax (Fin p)
        == tax + below + (income - lower) * rate.
Proof.
  induction pre as [|[[l|] r] pre IH]; intros p lower Hlim Hedge.
  - simpl in Hedge. injection Hedge as <-. exists 0.
    intros tax income Hlow Hup. simpl.
    destruct (Qltb p income) eqn:Ep.
    + assert (Emin : py_min_x (income - p) (xsub limit p) == income - p).
      { destruct limit as [l|]; simpl in *; [|reflexivity].
        destruct (py_min_spec (income - p) (l - p)) as [[Hlt _]|[_ ->]]; lra. }
      assert (Estop : forall t,
                tax_on_income_from income post t limit = t).
      { intros t. destruct limit as [l|]; simpl in Hup.
        - now apply tax_on_income_from_below.
        - apply tax_on_income_from_inf. }
      rewrite Estop, Emin. lra.
    + apply Qltb_ge in Ep. assert (E : income - p == 0) by lra.
      rewrite E. lra.
  - simpl in Hlim, Hedge. apply andb_true_iff in Hlim.
    destruct Hlim as [Hpl Hlim]. apply Qltb_lt in Hpl.
    pose proof (lower_edge_ge pre _ l lower Hlim Hedge) as Hge.
    destruct (IH l lower Hlim Hedge) as [below Hbelow].
    exists ((l - p) * r + below). intros tax income Hlow Hup. simpl.
    assert (Ep : Qltb p income = true) by (apply Qltb_lt; lra).
    rewrite Ep.
    assert (Emin : py_min (income - p) (l - p) == l - p).
    { destruct (py_min_spec (income - p) (l - p)) as [[_ ->]|[Hle ->]]; lra. }
    rewrite (tax_on_income_from_proper _ income income
               (tax + py_min (income - p) (l - p) * r) (tax + (l - p) * r)
               (Fin l) (Qeq_refl income)) by (rewrite Emin; reflexivity).
    rewrite (Hbelow _ income Hlow Hup). lra.
  - simpl in Hlim. destruct pre; discriminate Hlim.
Qed.

(** In exact arithmetic an increment that stays inside one bracket is taxed
    at exactly that bracket's rate. *)
Lemma calc_progressive_tax_in_bracket
    (pre post : list bracket) (limit : xnum) (rate lower base x : Q) :
  limits_increasing_from 0 (pre ++ (limit, rate) :: post) = true ->
  lower_edge 0 pre = Fin lower ->
  lower <= base ->
  0 <= x ->
  xle (base + x) limit ->
  calc_progressive_tax (pre ++ (limit, rate) :: post) base x == rate * x.
Proof.
  intros Hlim Hedge Hlow Hx Hup. unfold calc_progressive_tax, tax_on_income.
  destruct (Qle_bool x 0) eqn:Ex.
  - apply Qle_bool_iff in Ex. assert (E : x == 0) by lra. rewrite E. lra.
  - destruct (tax_on_income_in_bracket pre post limit rate 0 lower Hlim Hedge)
      as [below Hbelow].
    assert (Hup' : xle base limit).
    { destruct limit as [l|]; simpl in *; [lra|exact I]. }
    rewrite (Hbelow 0 (base + x)), (Hbelow 0 base) by (assumption || lra).
    lra.
Qed.



(** ** Tax component resolver: the other branches *)

Section ResolverMore.

Variable get_stock_price : string -> date -> bool -> option Q.
Variable get_fx_rate : date -> option Q.

Local Abbreviation resolve := (get_tax_components get_stock_price get_fx_rate).

Lemma truthy_available (v : option Q) :
  truthy v = true -> exists q, available v q.
Proof.
  destruct v as [q|]; simpl; [|discriminate].
  destruct (Qeq_bool q 0) eqn:E; [discriminate|]. intros _. exists q.
  split; [reflexivity|]. intros H. apply Qeq_bool_iff in H. congruence.
Qed.

(** What the branch off the Capital Gains Route returns once the six
    look-ups have succeeded. *)
Lemma get_tax_components_off_route
    (grant : Grant) (sale_date : date) (sp sfx gp gfx vp vfx : Q) :
  section_102 grant <> CAPITAL_GAINS_ROUTE ->
  available (get_stock_price (stock_code grant) sale_date false) sp ->
  available (get_fx_rate sale_date) sfx ->
  available (get_stock_price (stock_code grant) (grant_date grant) true) gp ->
  available (get_fx_rate (grant_date grant)) gfx ->
  available (get_stock_price (stock_code grant) (vesting_date grant) false) vp ->
  available (get_fx_rate (vesting_date grant)) vfx ->
  resolve grant sale_date
  = Some (mkComponents 0 (sp * sfx - vp * vfx) (sp * sfx) (gp * gfx) sp gp
            NOTE_NON_102).
Proof.
  intros Hroute Hsp Hsfx Hgp Hgfx Hvp Hvfx.
  pose proof (available_truthy _ _ Hsp) as T1.
  pose proof (available_truthy _ _ Hsfx) as T2.
  pose proof (available_truthy _ _ Hgp) as T3.
  pose proof (available_truthy _ _ Hgfx) as T4.
  pose proof (available_truthy _ _ Hvp) as T5.
  pose proof (available_truthy _ _ Hvfx) as T6.
  apply String.eqb_neq in Hroute.
  destruct Hsp as [Esp _], Hsfx as [Esfx _], Hgp as [Egp _], Hgfx as [Egfx _],
    Hvp as [Evp _], Hvfx as [Evfx _].
  unfold get_tax_components, py_all, forallb.
  rewrite T1, T2, T3, T4, T5, T6, Hroute. simpl negb. cbv iota.
  rewrite Esp, Esfx, Egp, Egfx, Evp, Evfx. reflexivity.
Qed.

(** When the resolver returns components off the route, the vesting-date
    look-ups were available too. *)
Lemma get_tax_components_Some_vesting
    (grant : Grant) (sale_date : date) (c : components) :
  section_102 grant <> CAPITAL_GAINS_ROUTE ->
  resolve grant sale_date = Some c ->
  exists vp vfx,
    available (get_stock_price (stock_code grant) (vesting_date grant) false) vp
    /\ available (get_fx_rate (vesting_date grant)) vfx.
Proof.
  intros Hroute Hres.
  destruct (py_all (required_values get_stock_price get_fx_rate grant sale_date))
    eqn:Eall.
  - unfold required_values, py_all in Eall. rewrite forallb_app in Eall.
    apply andb_true_iff in Eall. destruct Eall as [_ Eall].
    apply String.eqb_neq in Hroute. rewrite Hroute in Eall. simpl in Eall.
    apply andb_true_iff in Eall. destruct Eall as [E1 E2].
    apply andb_true_iff in E2. destruct E2 as [E2 _].
    destruct (truthy_available _ E1) as [vp Hvp].
    destruct (truthy_available _ E2) as [vfx Hvfx]. eauto.
  - rewrite (get_tax_components_requires _ _ _ _ Eall) in Hres. discriminate.
Qed.

(** X3. Off the Capital Gains Route, with the six look-ups available, the
    resolver returns an ordinary component of 0 and the capital component
    [sale value - vesting value], which may be negative. *)
Theorem off_route_is_capital_from_vesting
    (grant : Grant) (sale_date : date) (sp sfx gp gfx vp vfx : Q) :
  section_102 grant <> CAPITAL_GAINS_ROUTE ->
  available (get_stock_price (stock_code grant) sale_date false) sp ->
  available (get_fx_rate sale_date) sfx ->
  available (get_stock_price (stock_code grant) (grant_date grant) true) gp ->
  available (get_fx_rate (grant_date grant)) gfx ->
  available (get_stock_price (stock_code grant) (vesting_date grant) false) vp ->
  available (get_fx_rate (vesting_date grant)) vfx ->
  exists c,
    resolve grant sale_date = Some c
    /\ ordinary_per_share c = 0
    /\ capital_per_share c = sp * sfx - vp * vfx
    /\ sale_price_nis c = sp * sfx
    /\ grant_price_nis c = gp * gfx
    /\ note c = NOTE_NON_102
    /\ (sp * sfx < vp * vfx -> capital_per_share c < 0).
Proof.
  intros Hroute Hsp Hsfx Hgp Hgfx Hvp Hvfx.
  rewrite (get_tax_components_off_route grant sale_date sp sfx gp gfx vp vfx)
    by assumption.
  eexists. split; [reflexivity|]. simpl. repeat split. intros H. lra.
Qed.

(** The components on the route; that ordinary plus capital is the sale
    value holds in exact arithmetic only. *)
Lemma get_tax_components_route_split
    (grant : Grant) (sale_date : date) (c : components) :
  section_102 grant = CAPITAL_GAINS_ROUTE ->
  resolve grant sale_date = Some c ->
  0 <= capital_per_share c
  /\ ordinary_per_share c + capital_per_share c == sale_price_nis c
  /\ (date_ltb sale_date (add_months (grant_date grant) 24) = false ->
      ordinary_per_share c <= grant_price_nis c
      /\ (grant_price_nis c <= sale_price_nis c ->
          ordinary_per_share c == grant_price_nis c
          /\ capital_per_share c == sale_price_nis c - grant_price_nis c)).
Proof.
  intros Hroute Hres.
  destruct (get_tax_components_Some_available get_stock_price get_fx_rate
              grant sale_date c Hres)
    as (sp & sfx & gp & gfx & Hsp & Hsfx & Hgp & Hgfx).
  pose proof (get_tax_components_capital_gains_route get_stock_price
                get_fx_rate grant sale_date sp sfx gp gfx
                Hroute Hsp Hsfx Hgp Hgfx) as Hshape.
  cbv zeta in Hshape. rewrite Hres in Hshape.
  destruct (date_ltb sale_date (add_months (grant_date grant) 24)).
  - injection Hshape as ->. simpl. split; [lra|]. split; [lra|].
    intros H. discriminate H.
  - injection Hshape as ->. simpl.
    destruct (py_min_spec (gp * gfx) (sp * sfx)) as [[H1 ->]|[H1 ->]];
      destruct (py_max_spec 0 (sp * sfx - gp * gfx)) as [[H2 ->]|[H2 ->]];
      try lra; (split; [lra|]); (split; [lra|]); intros _;
      (split; [lra|]); intros H; split; lra.
Qed.


Lemma get_tax_components_note_prefix
    (grant : Grant) (sale_date : date) (c : components) :
  resolve grant sale_date = Some c ->
  String.prefix "§102" (note c) = true
  <-> section_102 grant = CAPITAL_GAINS_ROUTE.
Proof.
  intros Hres.
  destruct (get_tax_components_Some_available get_stock_price get_fx_rate
              grant sale_date c Hres)
    as (sp & sfx & gp & gfx & Hsp & Hsfx & Hgp & Hgfx).
  destruct (string_dec (section_102 grant) CAPITAL_GAINS_ROUTE) as [Hroute|Hroute].
  - pose proof (get_tax_components_capital_gains_route get_stock_price
                  get_fx_rate grant sale_date sp sfx gp gfx
                  Hroute Hsp Hsfx Hgp Hgfx) as Hshape.
    cbv zeta in Hshape. rewrite Hres in Hshape.
    split; [intros _; exact Hroute|intros _].
    destruct (date_ltb sale_date (add_months (grant_date grant) 24));
      injection Hshape as ->; simpl note; [reflexivity|].
    destruct (Qltb (sp * sfx) (gp * gfx)); reflexivity.
  - destruct (get_tax_components_Some_vesting grant sale_date c Hroute Hres)
      as (vp & vfx & Hvp & Hvfx).
    rewrite (get_tax_components_off_route grant sale_date sp sfx gp gfx vp vfx)
      in Hres by assumption.
    injection Hres as <-. simpl note.
    split; [intros H; discriminate H|intros H; contradiction].
Qed.

(** X5. The note of resolved components starts with [§102] exactly when
    the grant is on the Capital Gains Route, so the prefix test of the
    optimizer selects by route. *)
Theorem note_prefix_tells_route
    (grant : Grant) (sale_date : date) (c : components) :
  resolve grant sale_date = Some c ->
  String.prefix "§102" (note c) = true
  <-> section_102 grant = CAPITAL_GAINS_ROUTE.
Proof.
  apply get_tax_components_note_prefix.
Qed.

(** X6. Resolution fails exactly when one of the required values is
    missing or zero. *)
Theorem resolution_fails_iff_value_missing (grant : Grant) (sale_date : date) :
  resolve grant sale_date = None
  <-> py_all (required_values get_stock_price get_fx_rate grant sale_date)
      = false.
Proof.
  split; [|apply get_tax_components_requires].
  intros Hnone.
  destruct (py_all (required_values get_stock_price get_fx_rate grant sale_date))
    eqn:Eall; [|reflexivity].
  exfalso. unfold required_values, py_all in Eall. rewrite forallb_app in Eall.
  apply andb_true_iff in Eall. destruct Eall as [E4 Ev].
  simpl in E4. repeat (apply andb_true_iff in E4; destruct E4 as [? E4]).
  destruct (truthy_available _ H) as [sp Hsp].
  destruct (truthy_available _ H0) as [sfx Hsfx].
  destruct (truthy_available _ H1) as [gp Hgp].
  destruct (truthy_available _ H2) as [gfx Hgfx].
  destruct (string_dec (section_102 grant) CAPITAL_GAINS_ROUTE) as [Hroute|Hroute].
  - pose proof (get_tax_components_capital_gains_route get_stock_price
                  get_fx_rate grant sale_date sp sfx gp gfx
                  Hroute Hsp Hsfx Hgp Hgfx) as Hshape.
    cbv zeta in Hshape. rewrite Hnone in Hshape.
    destruct (date_ltb sale_date (add_months (grant_date grant) 24));
      discriminate Hshape.
  - pose proof Hroute as Hneq. apply String.eqb_neq in Hneq.
    rewrite Hneq in Ev. simpl in Ev.
    apply andb_true_iff in Ev. destruct Ev as [Ev1 Ev2].
    apply andb_true_iff in Ev2. destruct Ev2 as [Ev2 _].
    destruct (truthy_available _ Ev1) as [vp Hvp].
    destruct (truthy_available _ Ev2) as [vfx Hvfx].
    rewrite (get_tax_components_off_route grant sale_date sp sfx gp gfx vp vfx)
      in Hnone by assumption.
    discriminate Hnone.
Qed.

(** The day of the month on which [grant_date + 24 months] falls. *)
Lemma add_months_24 (d : date) :
  add_months d 24
  = mkDate (year d + 2) (month d)
      (Z.min (monthrange (year d + 2) (month d)) (day d)).
Proof.
  reflexivity.
Qed.

(** X7. The 24-month boundary is inclusive: a sale in the month of the
    grant two years later, on the grant's day of the month or later (or on
    the last day of a shorter month), is not disqualified; the resolver
    returns [min(base, sale)] as ordinary and [max(0, sale - base)] as
    capital component. *)
Theorem second_anniversary_qualifies
    (grant : Grant) (sale_day : Z) (sp sfx gp gfx : Q) :
  let granted := grant_date grant in
  let sale_date := mkDate (year granted + 2) (month granted) sale_day in
  section_102 grant = CAPITAL_GAINS_ROUTE ->
  (Z.min (monthrange (year granted + 2) (month granted)) (day granted)
   <= sale_day)%Z ->
  available (get_stock_price (stock_code grant) sale_date false) sp ->
  available (get_fx_rate sale_date) sfx ->
  available (get_stock_price (stock_code grant) granted true) gp ->
  available (get_fx_rate granted) gfx ->
  exists c,
    resolve grant sale_date = Some c
    /\ ordinary_per_share c = py_min (gp * gfx) (sp * sfx)
    /\ capital_per_share c = py_max 0 (sp * sfx - gp * gfx)
    /\ note c <> NOTE_DISQUALIFIED.
Proof.
  intros granted sale_date Hroute Hday Hsp Hsfx Hgp Hgfx.
  rewrite (get_tax_components_capital_gains_route get_stock_price get_fx_rate
             grant sale_date sp sfx gp gfx) by assumption.
  cbv zeta. fold granted. rewrite add_months_24.
  assert (E : date_ltb sale_date
                (mkDate (year granted + 2) (month granted)
                   (Z.min (monthrange (year granted + 2) (month granted))
                      (day granted))) = false).
  { unfold date_ltb, sale_date. simpl.
    rewrite !Z.ltb_irrefl, !Z.eqb_refl. simpl.
    apply Z.ltb_ge. exact Hday. }
  rewrite E. eexists. split; [reflexivity|]. simpl.
  repeat split. destruct (Qltb (sp * sfx) (gp * gfx)); discriminate.
Qed.

End ResolverMore.

(** ** The efficiency order of phase 1 *)


Lemma xltb_asym (a b : xnum) : xltb a b = true -> xltb b a = false.
Proof.
  destruct a as [a|], b as [b|]; simpl; try congruence.
  intros H. apply Qltb_lt in H. apply Qltb_ge. lra.
Qed.

Lemma xltb_false_trans (a b c : xnum) :
  xltb a b = false -> xltb b c = false -> xltb a c = false.
Proof.
  destruct a as [a|], b as [b|], c as [c|]; simpl; try congruence.
  intros H1 H2. apply Qltb_ge in H1, H2. apply Qltb_ge. lra.
Qed.

Lemma xltb_le_lt_trans (k x y : xnum) :
  xltb x k = false -> xltb x y = true -> xltb k y = true.
Proof.
  destruct k as [k|], x as [x|], y as [y|]; simpl; try congruence.
  intros H1 H2. apply Qltb_ge in H1. apply Qltb_lt in H2. apply Qltb_lt. lra.
Qed.

Lemma insert_desc_sorted (x : resolved) (l : list resolved) :
  StronglySorted not_below l -> StronglySorted not_below (insert_desc x l).
Proof.
  induction 1 as [|y l Hsorted IH Hall]; simpl.
  - repeat constructor.
  - destruct (xltb (efficiency x) (efficiency y)) eqn:E.
    + constructor; [exact IH|].
      rewrite (insert_desc_perm x l). constructor; [|exact Hall].
      now apply xltb_asym.
    + constructor; [now constructor|].
      constructor; [exact E|].
      eapply List.Forall_impl; [|exact Hall].
      intros z Hz. unfold not_below in *. eapply xltb_false_trans; eassumption.
Qed.

Lemma sorted_desc_sorted (l : list resolved) :
  StronglySorted not_below (sorted_desc l).
Proof.
  induction l as [|x l IH]; simpl; [constructor|].
  now apply insert_desc_sorted.
Qed.

(** Inserting [x] moves it past strictly more efficient entries only, so it
    stays in front of the entries of its own efficiency. *)
Lemma insert_desc_filter (k : xnum) (x : resolved) (l : list resolved) :
  List.filter (same_efficiency k) (insert_desc x l)
  = List.filter (same_efficiency k) (x :: l).
Proof.
  induction l as [|y l IH]; [reflexivity|]. simpl insert_desc.
  destruct (xltb (efficiency x) (efficiency y)) eqn:E; [|reflexivity].
  simpl List.filter in *. rewrite IH.
  destruct (same_efficiency k x) eqn:Ex; [|reflexivity].
  assert (Ey : same_efficiency k y = false).
  { unfold same_efficiency in *.
    apply andb_true_iff in Ex. destruct Ex as [Ex _].
    apply negb_true_iff in Ex.
    rewrite (xltb_le_lt_trans _ _ _ Ex E). simpl. apply andb_false_r. }
  now rewrite Ey.
Qed.

(** X8. [sorted(..., key=efficiency, reverse=True)] returns a permutation
    of its input in which no entry is followed by a more efficient one, and
    it is stable: for every efficiency value, the entries of that efficiency
    keep their input order. *)
Theorem sorted_desc_is_stable_descending (l : list resolved) (k : xnum) :
  sorted_desc l ≡ₚ l
  /\ StronglySorted not_below (sorted_desc l)
  /\ List.filter (same_efficiency k) (sorted_desc l)
     = List.filter (same_efficiency k) l.
Proof.
  split; [apply sorted_desc_perm|]. split; [apply sorted_desc_sorted|].
  induction l as [|x l IH]; [reflexivity|].
  simpl sorted_desc. rewrite insert_desc_filter. simpl. now rewrite IH.
Qed.

(** ** What each phase recommends *)

Lemma StronglySorted_sublist {A : Type} (R : A -> A -> Prop) (l k : list A) :
  sublist l k -> StronglySorted R k -> StronglySorted R l.
Proof.
  induction 1 as [|x l k Hsub IH|x l k Hsub IH]; intros Hk.
  - constructor.
  - apply StronglySorted_inv in Hk. destruct Hk as [Hk Hall].
    constructor; [now apply IH|].
    apply List.Forall_forall. intros y Hy.
    rewrite List.Forall_forall in Hall. apply Hall.
    now apply (sublist_In _ _ _ Hsub).
  - apply StronglySorted_inv in Hk. destruct Hk as [Hk _]. now apply IH.
Qed.

Lemma StronglySorted_map {A B : Type} (R : B -> B -> Prop) (f : A -> B)
    (l : list A) :
  StronglySorted R (List.map f l) ->
  StronglySorted (fun a b => R (f a) (f b)) l.
Proof.
  induction l as [|x l IH]; simpl; intros H; [constructor|].
  apply StronglySorted_inv in H. destruct H as [H Hall].
  constructor; [now apply IH|].
  apply List.Forall_forall. intros y Hy.
  rewrite List.Forall_forall in Hall. apply Hall. now apply in_map.
Qed.

(** The efficiency that [compute_efficiency] gives a phase-1 candidate. *)
Lemma compute_efficiency_candidate (c : components) (e : xnum) :
  0 < ordinary_per_share c -> 0 <= capital_per_share c ->
  compute_efficiency c = Ok e ->
  exists q, e = Fin q /\ q == capital_per_share c / ordinary_per_share c.
Proof.
  intros Hord Hcap. unfold compute_efficiency.
  assert (Eo : Qltb 0 (ordinary_per_share c) = true) by now apply Qltb_lt.
  rewrite Eo. simpl.
  destruct (Qltb 0 (capital_per_share c)) eqn:Ec.
  - rewrite py_div_ok by lra. simpl. intros H. injection H as <-.
    eexists. split; reflexivity.
  - apply Qltb_ge in Ec. intros H. injection H as <-.
    exists 0. split; [reflexivity|].
    assert (E : capital_per_share c == 0) by lra.
    unfold Qdiv. rewrite E. lra.
Qed.

Section Candidates.

Variable get_stock_price : string -> date -> bool -> option Q.
Variable get_fx_rate : date -> option Q.
Variable today : date.

Local Abbreviation resolve := (get_tax_components get_stock_price get_fx_rate).
Local Abbreviation process := (grants_to_process get_stock_price get_fx_rate today).
Local Abbreviation run := (allocate get_stock_price get_fx_rate today).

Local Abbreviation well_resolved :=
  (well_resolved get_stock_price get_fx_rate today).

Lemma grants_to_process_well_resolved (rsu_data : list Grant) :
  forall processed,
    process rsu_data = Ok processed -> Forall well_resolved processed.
Proof.
  induction rsu_data as [|grant rest IH]; simpl; intros processed H.
  - injection H as <-. constructor.
  - destruct (resolve grant today) as [c|] eqn:Ec; [|now apply IH].
    destruct (compute_efficiency c) as [e|x] eqn:Ee; [|discriminate H].
    simpl in H.
    destruct (process rest) as [processed'|x] eqn:Ep; [|discriminate H].
    simpl in H. injection H as <-.
    constructor; [split; assumption|]. now apply IH.
Qed.

(** A phase-1 candidate is on the Capital Gains Route, with a positive
    ordinary and a non-negative capital component and a finite efficiency;
    in exact arithmetic the components add up to the sale value and the
    efficiency is their ratio. *)
Lemma s102_gain_facts (g : resolved) :
  well_resolved g -> is_s102_gain g = true ->
  section_102 (r_grant g) = CAPITAL_GAINS_ROUTE
  /\ 0 < ord_of g /\ 0 <= cap_of g
  /\ ord_of g + cap_of g == sale_price_nis (r_components g)
  /\ exists q, efficiency g = Fin q /\ q == cap_of g / ord_of g.
Proof.
  intros [Hres Heff] Hgain. unfold is_s102_gain in Hgain.
  apply andb_true_iff in Hgain. destruct Hgain as [Hgain Hord].
  apply andb_true_iff in Hgain. destruct Hgain as [Hnote Hcap].
  apply Qle_bool_iff in Hcap. apply Qltb_lt in Hord.
  apply (get_tax_components_note_prefix _ _ _ _ _ Hres) in Hnote.
  destruct (get_tax_components_route_split _ _ _ _ _ Hnote Hres)
    as (_ & Hsplit & _).
  repeat split; try assumption.
  now apply compute_efficiency_candidate.
Qed.

(** A loss candidate is off the Capital Gains Route and has no ordinary
    component. *)
Lemma cap_loss_facts (g : resolved) :
  well_resolved g -> cap_of g < 0 ->
  section_102 (r_grant g) <> CAPITAL_GAINS_ROUTE
  /\ ordinary_per_share (r_components g) = 0.
Proof.
  intros [Hres _] Hcap.
  assert (Hroute : section_102 (r_grant g) <> CAPITAL_GAINS_ROUTE).
  { intros Hroute.
    destruct (get_tax_components_route_split _ _ _ _ _ Hroute Hres) as (H & _).
    unfold cap_of in Hcap. lra. }
  split; [exact Hroute|].
  destruct (get_tax_components_Some_available _ _ _ _ _ Hres)
    as (sp & sfx & gp & gfx & Hsp & Hsfx & Hgp & Hgfx).
  destruct (get_tax_components_Some_vesting _ _ _ _ _ Hroute Hres)
    as (vp & vfx & Hvp & Hvfx).
  rewrite (get_tax_components_off_route _ _ _ _ sp sfx gp gfx vp vfx)
    in Hres by assumption.
  injection Hres as <-. reflexivity.
Qed.

(** The two phases, with what is known of every recommended entry. *)
Lemma allocate_candidates (rsu_data : list Grant) (current_income target : Q) :
  exists recs1 recs2,
    run rsu_data current_income target = Ok (recs1, recs2)
    /\ Forall (fun rec => In (grant_of rec) rsu_data) (recs1 ++ recs2)
    /\ Forall (fun rec => well_resolved (rec_entry rec)
                          /\ is_s102_gain (rec_entry rec) = true
                          /\ (0 < units_to_sell rec)%Z) recs1
    /\ StronglySorted (fun a b => not_below (rec_entry a) (rec_entry b)) recs1
    /\ Forall (fun rec => well_resolved (rec_entry rec)
                          /\ cap_of (rec_entry rec) < 0
                          /\ (0 < units_to_sell rec)%Z) recs2
    /\ (recs1 = [] \/ running_income_after current_income recs1 <= target).
Proof.
  destruct (allocate_spec get_stock_price get_fx_rate today rsu_data
              current_income target)
    as (processed & recs1 & recs2 & Hp & Hrun & Hsteps1 & Hsub1 & Hsteps2 & Hsub2).
  pose proof (grants_to_process_well_resolved rsu_data processed Hp) as Hwell.
  rewrite List.Forall_forall in Hwell.
  destruct (grants_to_process_spec get_stock_price get_fx_rate today rsu_data)
    as (processed' & Hp' & Hrows & _).
  rewrite Hp in Hp'. injection Hp' as <-.
  assert (Hgains : forall g, In g (s102_gains processed) ->
                     In g processed /\ is_s102_gain g = true).
  { intros g Hg. unfold s102_gains in Hg.
    apply (Permutation_in _ (sorted_desc_perm _)) in Hg.
    now apply filter_In in Hg. }
  exists recs1, recs2. split; [exact Hrun|].
  split; [|split; [|split; [|split]]].
  - apply List.Forall_forall. intros rec Hin.
    apply (sublist_In _ _ _ Hrows). unfold grant_of. apply in_map.
    apply in_app_or in Hin. destruct Hin as [Hin|Hin].
    + apply Hgains. apply (sublist_In _ _ _ Hsub1). now apply in_map.
    + assert (Hg : In (rec_entry rec) (cap_losses processed)).
      { apply (sublist_In _ _ _ Hsub2). now apply in_map. }
      unfold cap_losses in Hg. now apply filter_In in Hg.
  - apply List.Forall_forall. intros rec Hin.
    assert (Hg : In (rec_entry rec) (s102_gains processed)).
    { apply (sublist_In _ _ _ Hsub1). now apply in_map. }
    unfold s102_gains in Hg.
    apply (Permutation_in _ (sorted_desc_perm _)) in Hg.
    apply filter_In in Hg. destruct Hg as [Hg1 Hg2].
    apply in_split in Hin. destruct Hin as (pre & post & Hsplit).
    destruct (Hsteps1 pre rec post Hsplit) as (Hu & _).
    split; [now apply Hwell|]. split; [exact Hg2|lia].
  - apply StronglySorted_map.
    apply (StronglySorted_sublist _ _ _ Hsub1). apply sorted_desc_sorted.
  - apply List.Forall_forall. intros rec Hin.
    assert (Hg : In (rec_entry rec) (cap_losses processed)).
    { apply (sublist_In _ _ _ Hsub2). now apply in_map. }
    unfold cap_losses in Hg. apply filter_In in Hg. destruct Hg as [Hg1 Hg2].
    apply in_split in Hin. destruct Hin as (pre & post & Hsplit).
    destruct (Hsteps2 pre rec post Hsplit) as (Hu & Hc & _).
    split; [now apply Hwell|]. split; [exact Hc|lia].
  - destruct recs1 as [|r rs]; [now left|right].
    destruct (@exists_last _ (r :: rs)) as (pre & rec & Hlast);
      [discriminate|].
    destruct (Hsteps1 pre rec [] Hlast) as (_ & _ & _ & _ & Hfit).
    rewrite Hlast, running_income_after_snoc. exact Hfit.
Qed.

End Candidates.

(** ** The rows of the final loop *)

Lemma tax_breakdowns_app (recs1 recs2 : list recommendation) :
  forall start : Q,
    tax_breakdowns (recs1 ++ recs2) start
    = tax_breakdowns recs1 start
      ++ tax_breakdowns recs2 (running_income_for_tax_after start recs1).
Proof.
  induction recs1 as [|rec rest IH]; intros start; simpl; [reflexivity|].
  now rewrite IH.
Qed.

Lemma tax_breakdowns_recs (recs : list recommendation) :
  forall start : Q, List.map b_rec (tax_breakdowns recs start) = recs.
Proof.
  induction recs as [|rec rest IH]; intros start; simpl; [reflexivity|].
  now rewrite IH.
Qed.

Lemma Qsum_app (l k : list Q) : Qsum (l ++ k) == Qsum l + Qsum k.
Proof.
  induction l as [|x l IH]; simpl; [lra|]. rewrite IH. lra.
Qed.

Lemma Qsum_nonneg (l : list Q) : Forall (fun x => 0 <= x) l -> 0 <= Qsum l.
Proof.
  induction 1 as [|x l Hx _ IH]; simpl; lra.
Qed.

(** The ordinary totals of the rows, whatever income the loop starts from. *)
Lemma ord_totals_of_rows (recs : list recommendation) :
  forall start : Q,
    List.map ord_total (tax_breakdowns recs start)
    = List.map (fun rec => ordinary_per_share (r_components (rec_entry rec))
                           * inject_Z (units_to_sell rec)) recs.
Proof.
  induction recs as [|rec rest IH]; intros start; simpl; [reflexivity|].
  now rewrite IH.
Qed.

Lemma running_income_after_sum (recs : list recommendation) :
  forall start : Q,
    running_income_after start recs
    == start
       + Qsum (List.map
                 (fun rec => ordinary_per_share (r_components (rec_entry rec))
                             * inject_Z (units_to_sell rec)) recs).
Proof.
  induction recs as [|rec rest IH]; intros start; simpl; [lra|].
  unfold running_income_after in *. simpl. rewrite IH. unfold ord_of. lra.
Qed.

(** The income taxes of consecutive rows add up to the tax on their
    ordinary totals taken as one slice. *)
Lemma income_tax_of_rows (recs : list recommendation) :
  forall start : Q,
    Forall (fun rec => 0 <= ordinary_per_share (r_components (rec_entry rec))
                            * inject_Z (units_to_sell rec)) recs ->
    Qsum (List.map income_tax (tax_breakdowns recs start))
    == calc_progressive_tax ISRAELI_TAX_BRACKETS_2025 start
         (Qsum (List.map ord_total (tax_breakdowns recs start))).
Proof.
  induction recs as [|rec rest IH]; intros start Hpos.
  - simpl. reflexivity.
  - apply Forall_cons in Hpos. destruct Hpos as [Hrec Hrest].
    simpl. rewrite (IH _ Hrest).
    rewrite calc_progressive_tax_split; [reflexivity|exact Hrec|].
    apply Qsum_nonneg. rewrite ord_totals_of_rows.
    apply List.Forall_forall. intros x Hx. apply in_map_iff in Hx.
    destruct Hx as (rec' & <- & Hin).
    rewrite List.Forall_forall in Hrest. now apply Hrest.
Qed.

Lemma calc_progressive_tax_2025_range (base x : Q) :
  0 <= x ->
  0 <= calc_progressive_tax ISRAELI_TAX_BRACKETS_2025 base x
  /\ calc_progressive_tax ISRAELI_TAX_BRACKETS_2025 base x <= (1 # 2) * x.
Proof.
  intros Hx.
  assert (Hlo : 0 <= 0.10) by (unfold Qle; simpl; lia).
  destruct (calc_progressive_tax_range ISRAELI_TAX_BRACKETS_2025
              0.10 0.50 base x eq_refl eq_refl Hlo Hx) as (H1 & H2 & _).
  split; [exact H1|]. assert (E : 0.50 == 1 # 2) by reflexivity.
  rewrite E in H2. exact H2.
Qed.

(** A row of a phase-1 recommendation: in exact arithmetic the tax is at
    most half the proceeds. *)
Lemma gain_row_tax (rec : recommendation) (start : Q) :
  let c := r_components (rec_entry rec) in
  0 < ordinary_per_share c -> 0 <= capital_per_share c ->
  ordinary_per_share c + capital_per_share c == sale_price_nis c ->
  (0 < units_to_sell rec)%Z ->
  forall b rows, tax_breakdowns [rec] start = b :: rows ->
    0 <= ord_total b /\ 0 <= income_tax b /\ 0 <= cgt b /\ 0 <= total_tax b
    /\ 0 < gross_proceeds b
    /\ 2 * total_tax b <= gross_proceeds b
    /\ net_proceeds b == gross_proceeds b - total_tax b.
Proof.
  intros c Hord Hcap Hsplit Hu b rows Hb. simpl in Hb. injection Hb as <- _.
  unfold gross_proceeds. simpl. fold c.
  assert (Hz : 0 < inject_Z (units_to_sell rec)).
  { rewrite Zlt_Qlt in Hu. exact Hu. }
  assert (Ho : 0 < ordinary_per_share c * inject_Z (units_to_sell rec)) by nra.
  assert (Hc : 0 <= capital_per_share c * inject_Z (units_to_sell rec)) by nra.
  destruct (calc_progressive_tax_2025_range start
              (ordinary_per_share c * inject_Z (units_to_sell rec)))
    as [T1 T2]; [lra|].
  assert (Hmax : py_max 0 (capital_per_share c * inject_Z (units_to_sell rec))
                 == capital_per_share c * inject_Z (units_to_sell rec)).
  { destruct (py_max_spec 0 (capital_per_share c
                             * inject_Z (units_to_sell rec)))
      as [[_ ->]|[H ->]]; lra. }
  assert (Hrate : CAPITAL_GAINS_RATE == 1 # 4) by reflexivity.
  rewrite Hmax, Hrate.
  assert (Hgross : sale_price_nis c * inject_Z (units_to_sell rec)
                   == ordinary_per_share c * inject_Z (units_to_sell rec)
                      + capital_per_share c * inject_Z (units_to_sell rec)).
  { rewrite <- Hsplit. lra. }
  rewrite Hgross. repeat split; lra.
Qed.

(** A row of a phase-2 recommendation carries no tax at all. *)
Lemma loss_row_tax (rec : recommendation) (start : Q) :
  let c := r_components (rec_entry rec) in
  ordinary_per_share c = 0 -> capital_per_share c < 0 ->
  (0 < units_to_sell rec)%Z ->
  forall b rows, tax_breakdowns [rec] start = b :: rows ->
    ord_total b == 0 /\ income_tax b == 0 /\ cgt b == 0 /\ total_tax b == 0
    /\ cap_total b < 0
    /\ net_proceeds b == gross_proceeds b.
Proof.
  intros c Hord Hcap Hu b rows Hb. simpl in Hb. injection Hb as <- _.
  unfold gross_proceeds. simpl. fold c. rewrite Hord.
  assert (Hz : 0 < inject_Z (units_to_sell rec)).
  { rewrite Zlt_Qlt in Hu. exact Hu. }
  assert (Hc : capital_per_share c * inject_Z (units_to_sell rec) < 0) by nra.
  assert (Htax : calc_progressive_tax ISRAELI_TAX_BRACKETS_2025 start
                   (0 * inject_Z (units_to_sell rec)) = 0).
  { unfold calc_progressive_tax.
    assert (E : Qle_bool (0 * inject_Z (units_to_sell rec)) 0 = true)
      by (apply Qle_bool_iff; lra).
    now rewrite E. }
  rewrite Htax.
  destruct (py_max_spec 0 (capital_per_share c * inject_Z (units_to_sell rec)))
    as [[H _]|[_ ->]]; [lra|].
  repeat split; lra.
Qed.

Lemma tax_breakdowns_cons (rec : recommendation) (rest : list recommendation)
    (start : Q) :
  tax_breakdowns (rec :: rest) start
  = tax_breakdowns [rec] start
    ++ tax_breakdowns rest (running_income_for_tax_after start [rec]).
Proof.
  apply (tax_breakdowns_app [rec] rest).
Qed.

(** A property of single rows that holds for every recommendation holds
    for every row of the loop. *)
Lemma tax_breakdowns_Forall (P : recommendation -> Prop)
    (R : breakdown -> Prop) (recs : list recommendation) :
  (forall rec start b rows,
     P rec -> tax_breakdowns [rec] start = b :: rows -> R b) ->
  Forall P recs ->
  forall start, Forall R (tax_breakdowns recs start).
Proof.
  intros Hrow. induction 1 as [|rec rest Hrec _ IH]; intros start.
  - constructor.
  - rewrite tax_breakdowns_cons. apply List.Forall_app. split; [|apply IH].
    simpl. constructor; [|constructor].
    now apply (Hrow rec start _ [] Hrec).
Qed.

Section PlanFacts.

Variable get_stock_price : string -> date -> bool -> option Q.
Variable get_fx_rate : date -> option Q.
Variable today : date.

Local Abbreviation run := (allocate get_stock_price get_fx_rate today).
Local Abbreviation plan := (sale_plan get_stock_price get_fx_rate today).
Local Abbreviation well_resolved :=
  (well_resolved get_stock_price get_fx_rate today).

Lemma sale_plan_of_allocate (rsu_data : list Grant) (current_income target : Q)
    (recs1 recs2 : list recommendation) :
  run rsu_data current_income target = Ok (recs1, recs2) ->
  plan rsu_data current_income target
  = Ok (tax_breakdowns recs1 current_income
        ++ tax_breakdowns recs2
             (running_income_for_tax_after current_income recs1)).
Proof.
  intros Hrun. unfold sale_plan, recommendations. rewrite Hrun. simpl.
  now rewrite tax_breakdowns_app.
Qed.

(** The ordinary total of every recommendation of a run is not negative. *)
Lemma ordinary_totals_nonneg (recs1 recs2 : list recommendation) :
  Forall (fun rec => well_resolved (rec_entry rec)
                     /\ is_s102_gain (rec_entry rec) = true
                     /\ (0 < units_to_sell rec)%Z) recs1 ->
  Forall (fun rec => well_resolved (rec_entry rec)
                     /\ cap_of (rec_entry rec) < 0
                     /\ (0 < units_to_sell rec)%Z) recs2 ->
  Forall (fun rec => 0 <= ordinary_per_share (r_components (rec_entry rec))
                          * inject_Z (units_to_sell rec)) (recs1 ++ recs2).
Proof.
  intros H1 H2. apply List.Forall_app. split.
  - eapply List.Forall_impl; [|exact H1]. intros rec (Hw & Hg & Hu). simpl.
    destruct (s102_gain_facts _ _ _ _ Hw Hg) as (_ & Hord & _).
    unfold ord_of in Hord.
    assert (Hz : 0 < inject_Z (units_to_sell rec)).
    { rewrite Zlt_Qlt in Hu. exact Hu. }
    nra.
  - eapply List.Forall_impl; [|exact H2]. intros rec (Hw & Hc & Hu). simpl.
    destruct (cap_loss_facts _ _ _ _ Hw Hc) as (_ & ->). lra.
Qed.

Lemma loss_recs_no_ordinary (recs2 : list recommendation) :
  Forall (fun rec => well_resolved (rec_entry rec)
                     /\ cap_of (rec_entry rec) < 0
                     /\ (0 < units_to_sell rec)%Z) recs2 ->
  Qsum (List.map
          (fun rec => ordinary_per_share (r_components (rec_entry rec))
                      * inject_Z (units_to_sell rec)) recs2) == 0.
Proof.
  induction 1 as [|rec rest (Hw & Hc & _) _ IH]; simpl; [reflexivity|].
  destruct (cap_loss_facts _ _ _ _ Hw Hc) as (_ & ->). rewrite IH. lra.
Qed.


(** X10. Phase 2 recommends only grants off the Capital Gains Route, and
    their rows, which follow the rows of phase 1, carry no tax: ordinary
    total, income tax, capital-gains tax and total tax are 0 and the net
    proceeds are the whole sale value. *)
Theorem loss_harvest_rows_are_tax_free
    (rsu_data : list Grant) (current_income target_bracket_limit : Q) :
  exists recs1 recs2 rows1 rows2,
    run rsu_data current_income target_bracket_limit = Ok (recs1, recs2)
    /\ plan rsu_data current_income target_bracket_limit = Ok (rows1 ++ rows2)
    /\ List.map b_rec rows1 = recs1
    /\ List.map b_rec rows2 = recs2
    /\ Forall (fun rec => section_102 (grant_of rec) <> CAPITAL_GAINS_ROUTE)
         recs2
    /\ Forall (fun b => ord_total b == 0 /\ income_tax b == 0 /\ cgt b == 0
                        /\ total_tax b == 0 /\ cap_total b < 0
                        /\ net_proceeds b == gross_proceeds b) rows2.
Proof.
  destruct (allocate_candidates get_stock_price get_fx_rate today rsu_data
              current_income target_bracket_limit)
    as (recs1 & recs2 & Hrun & _ & _ & _ & H2 & _).
  exists recs1, recs2, (tax_breakdowns recs1 current_income),
    (tax_breakdowns recs2 (running_income_for_tax_after current_income recs1)).
  split; [exact Hrun|]. split; [now apply sale_plan_of_allocate|].
  split; [apply tax_breakdowns_recs|]. split; [apply tax_breakdowns_recs|].
  split.
  - eapply List.Forall_impl; [|exact H2]. intros rec (Hw & Hc & _).
    now destruct (cap_loss_facts _ _ _ _ Hw Hc).
  - apply (tax_breakdowns_Forall _ _ recs2) with (2 := H2).
    intros rec start b rows (Hw & Hc & Hu) Hb.
    destruct (cap_loss_facts _ _ _ _ Hw Hc) as (_ & Hord).
    exact (loss_row_tax rec start Hord Hc Hu b rows Hb).
Qed.




(** X14. Without a grant on the Capital Gains Route nothing is ever
    recommended, whatever gains or losses the other grants carry: loss
    harvesting needs a phase-1 gain to offset. *)
Theorem no_route_grant_no_recommendation
    (rsu_data : list Grant) (current_income target_bracket_limit : Q) :
  Forall (fun grant => section_102 grant <> CAPITAL_GAINS_ROUTE) rsu_data ->
  run rsu_data current_income target_bracket_limit = Ok ([], [])
  /\ optimize_rsu_sales get_stock_price get_fx_rate today
       rsu_data current_income target_bracket_limit = Ok [].
Proof.
  intros Hoff.
  destruct (allocate_candidates get_stock_price get_fx_rate today rsu_data
              current_income target_bracket_limit)
    as (recs1 & recs2 & Hrun & Hin & H1 & _).
  destruct (allocate_spec get_stock_price get_fx_rate today rsu_data
              current_income target_bracket_limit)
    as (processed & recs1' & recs2' & _ & Hrun' & _ & _ & Hsteps2 & _).
  rewrite Hrun in Hrun'. injection Hrun' as <- <-.
  assert (E1 : recs1 = []).
  { destruct recs1 as [|rec rest]; [reflexivity|exfalso].
    apply Forall_cons in H1. destruct H1 as [(Hw & Hg & _) _].
    destruct (s102_gain_facts _ _ _ _ Hw Hg) as (Hroute & _).
    apply Forall_cons in Hin. destruct Hin as [Hin _].
    rewrite List.Forall_forall in Hoff. now apply (Hoff _ Hin). }
  subst recs1.
  assert (E2 : recs2 = []).
  { destruct recs2 as [|rec rest]; [reflexivity|exfalso].
    destruct (Hsteps2 [] rec rest eq_refl) as (_ & _ & Hpos & _).
    unfold total_cap_gain in Hpos. simpl in Hpos. lra. }
  subst recs2. split; [exact Hrun|].
  unfold optimize_rsu_sales, sale_plan, recommendations. now rewrite Hrun.
Qed.

End PlanFacts.

(** ** How far each phase goes *)

Lemma Qceiling_pos (q : Q) : 0 < q -> (0 < Qceiling q)%Z.
Proof.
  intros Hq. pose proof (Qle_ceiling q) as H.
  rewrite Zlt_Qlt. change (inject_Z 0) with 0. lra.
Qed.

(** In exact arithmetic the second loop stops short of the target only
    when it has sold every sellable candidate in full. *)
Lemma loss_phase_exhausts (total : Q) (losses : list resolved) :
  forall start : Q,
  exists recs final,
    loss_phase total losses start = Ok (recs, final)
    /\ (total <= final
        \/ (List.map rec_entry recs = List.filter sellable_loss losses
            /\ Forall sold_in_full recs)).
Proof.
  induction losses as [|grant rest IH]; intros start; simpl.
  - exists [], start. split; [reflexivity|]. right. split; constructor.
  - destruct (Qle_bool total start) eqn:Estop.
    { apply Qle_bool_iff in Estop. exists [], start.
      split; [reflexivity|now left]. }
    apply Qle_bool_gt in Estop. unfold sellable_loss at 1.
    destruct (Qle_bool (py_abs (cap_of grant)) 0) eqn:Elps.
    { apply Qle_bool_iff, Qltb_ge in Elps. rewrite Elps, andb_false_r.
      apply IH. }
    apply Qle_bool_gt in Elps. rewrite py_div_ok by lra. simpl bind.
    assert (Hceil : (0 < np_ceil_int ((total - start) / py_abs (cap_of grant)))%Z).
    { apply Qceiling_pos. apply Qlt_shift_div_l; lra. }
    assert (Elps' : Qltb 0 (py_abs (cap_of grant)) = true) by now apply Qltb_lt.
    rewrite Elps', andb_true_r.
    destruct (Z.min (units_of grant)
                (np_ceil_int ((total - start) / py_abs (cap_of grant)))
              <=? 0)%Z eqn:Eu.
    { apply Z.leb_le in Eu.
      assert (E : (0 <? units_of grant)%Z = false) by (apply Z.ltb_ge; lia).
      rewrite E. apply IH. }
    apply Z.leb_gt in Eu.
    assert (E : (0 <? units_of grant)%Z = true) by (apply Z.ltb_lt; lia).
    rewrite E.
    destruct (Z.min_spec (units_of grant)
                (np_ceil_int ((total - start) / py_abs (cap_of grant))))
      as [[Hlt Emin]|[Hle Emin]]; rewrite Emin in *.
    + destruct (IH (start + inject_Z (units_of grant) * py_abs (cap_of grant)))
        as (recs & final & Heq & Hend).
      rewrite Heq. simpl bind.
      exists (mkRecommendation grant (units_of grant) :: recs), final.
      split; [reflexivity|].
      destruct Hend as [Hend|[Hmap Hfull]]; [now left|right].
      split; [simpl; now rewrite Hmap|]. constructor; [reflexivity|exact Hfull].
    + set (units := np_ceil_int ((total - start) / py_abs (cap_of grant))) in *.
      assert (Hreach : total
                       <= start + inject_Z units * py_abs (cap_of grant)).
      { pose proof (Qle_ceiling ((total - start) / py_abs (cap_of grant))) as Hc.
        fold (np_ceil_int ((total - start) / py_abs (cap_of grant))) in Hc.
        fold units in Hc.
        apply (Qmult_le_compat_r _ _ (py_abs (cap_of grant))) in Hc; [|lra].
        assert (Hdiv : (total - start) / py_abs (cap_of grant)
                       * py_abs (cap_of grant) == total - start)
          by (field; lra).
        lra. }
      rewrite (loss_phase_target_reached total rest _ Hreach). simpl bind.
      eexists _, _. split; [reflexivity|now left].
Qed.

(** In exact arithmetic the first loop leaves a candidate unsold, or
    partly sold, only when not even one more of its shares fits under the
    ceiling. *)
Lemma gains_phase_maximal (target : Q) (gains : list resolved) :
  Forall (fun g => 0 < ord_of g) gains ->
  forall start : Q,
  exists recs final,
    gains_phase target gains start = Ok (recs, final)
    /\ start <= final
    /\ forall g, In g gains -> (0 < units_of g)%Z ->
         (exists rec, In rec recs /\ rec_entry rec = g /\ sold_in_full rec)
         \/ target - final < ord_of g.
Proof.
  induction 1 as [|grant rest Hord Hrest IH]; intros start; simpl.
  - exists [], start. split; [reflexivity|]. split; [lra|]. intros g [].
  - assert (Eord : Qle_bool (ord_of grant) 0 = false) by now apply Qle_bool_gt.
    rewrite Eord.
    destruct (Qle_bool (target - start) 0) eqn:Eroom.
    { apply Qle_bool_iff in Eroom. exists [], start.
      split; [reflexivity|]. split; [lra|].
      intros g Hg _. right.
      assert (Hg' : 0 < ord_of g).
      { destruct Hg as [<-|Hg]; [exact Hord|].
        rewrite List.Forall_forall in Hrest. now apply Hrest. }
      lra. }
    apply Qle_bool_gt in Eroom. rewrite py_div_ok by lra. simpl bind.
    destruct (floor_units_fit (target - start) (ord_of grant) (units_of grant)
                Hord Eroom) as [Hint _].
    pose proof (Qlt_floor ((target - start) / ord_of grant)) as Hfloor.
    rewrite <- Hint in Hfloor. rewrite inject_Z_plus in Hfloor.
    apply (Qmult_lt_compat_r _ _ (ord_of grant)) in Hfloor; [|exact Hord].
    assert (Hdiv : (target - start) / ord_of grant * ord_of grant
                   == target - start) by (field; lra).
    assert (Hone : inject_Z 1 == 1) by reflexivity.
    rewrite Hdiv, Hone in Hfloor. clear Hdiv Hone.
    set (fit := py_int ((target - start) / ord_of grant)) in *.
    destruct (Z.min (units_of grant) fit <=? 0)%Z eqn:Eu.
    + apply Z.leb_le in Eu.
      destruct (IH start) as (recs & final & Heq & Hge & Hmax).
      exists recs, final. split; [exact Heq|]. split; [exact Hge|].
      intros g [<-|Hg] Hunits; [|now apply Hmax].
      right. assert (Hfit : (fit <= 0)%Z) by lia.
      rewrite Zle_Qle in Hfit. change (inject_Z 0) with 0 in Hfit. nra.
    + apply Z.leb_gt in Eu.
      destruct (IH (start + inject_Z (Z.min (units_of grant) fit)
                            * ord_of grant))
        as (recs & final & Heq & Hge & Hmax).
      rewrite Heq. simpl bind.
      exists (mkRecommendation grant (Z.min (units_of grant) fit) :: recs),
        final.
      split; [reflexivity|].
      assert (Hpos : 0 < inject_Z (Z.min (units_of grant) fit)).
      { rewrite Zlt_Qlt in Eu. exact Eu. }
      split; [nra|].
      intros g [<-|Hg] Hunits.
      * destruct (Z.min_spec (units_of grant) fit) as [[_ Emin]|[_ Emin]];
          rewrite Emin in *.
        -- left. eexists. split; [now left|]. split; reflexivity.
        -- right. nra.
      * destruct (Hmax g Hg Hunits) as [(rec & Hin & Hrec)|Hfull];
          [left; exists rec; split; [now right|exact Hrec]|now right].
Qed.

Section PhaseReach.

Variable get_stock_price : string -> date -> bool -> option Q.
Variable get_fx_rate : date -> option Q.
Variable today : date.

Local Abbreviation process := (grants_to_process get_stock_price get_fx_rate today).
Local Abbreviation run := (allocate get_stock_price get_fx_rate today).


Lemma allocate_maximal
    (rsu_data : list Grant) (current_income target_bracket_limit : Q) :
  exists processed recs1 recs2,
    process rsu_data = Ok processed
    /\ run rsu_data current_income target_bracket_limit = Ok (recs1, recs2)
    /\ forall g, In g (s102_gains processed) -> (0 < units_of g)%Z ->
         (exists rec, In rec recs1 /\ rec_entry rec = g /\ sold_in_full rec)
         \/ target_bracket_limit - running_income_after current_income recs1
            < ord_of g.
Proof.
  destruct (allocate_spec get_stock_price get_fx_rate today rsu_data
              current_income target_bracket_limit)
    as (processed & recs1 & recs2 & Hp & Hrun & _).
  exists processed, recs1, recs2. split; [exact Hp|]. split; [exact Hrun|].
  assert (Hord : Forall (fun g => 0 < ord_of g) (s102_gains processed)).
  { apply List.Forall_forall. intros g Hg. unfold s102_gains in Hg.
    apply (Permutation_in _ (sorted_desc_perm _)) in Hg.
    apply filter_In in Hg. destruct Hg as [_ Hg]. unfold is_s102_gain in Hg.
    apply andb_true_iff in Hg. destruct Hg as [_ Hg]. now apply Qltb_lt. }
  destruct (gains_phase_spec target_bracket_limit (s102_gains processed)
              current_income) as (recs & Hspec & _).
  destruct (gains_phase_maximal target_bracket_limit (s102_gains processed)
              Hord current_income) as (recs' & final & Heq & _ & Hmax).
  rewrite Hspec in Heq. injection Heq as <- <-.
  assert (E : recs = recs1).
  { unfold allocate in Hrun. rewrite Hp in Hrun. simpl bind in Hrun.
    rewrite Hspec in Hrun. simpl bind in Hrun.
    destruct (loss_phase (total_cap_gain recs) (cap_losses processed) 0)
      as [[r2 f2]|x]; [|discriminate Hrun].
    simpl in Hrun. now injection Hrun. }
  subst recs. exact Hmax.
Qed.


(** X21. Phase 1 recommends something as soon as one share of one
    candidate fits: if some phase-1 candidate has a positive unit count and
    an ordinary component per share that is at most the room between the
    current income and the ceiling, the list of phase-1 recommendations is
    not empty. *)
Theorem phase1_sells_when_a_share_fits
    (rsu_data : list Grant) (current_income target_bracket_limit : Q) :
  exists processed recs1 recs2,
    process rsu_data = Ok processed
    /\ run rsu_data current_income target_bracket_limit = Ok (recs1, recs2)
    /\ forall g, In g (s102_gains processed) -> (0 < units_of g)%Z ->
         ord_of g <= target_bracket_limit - current_income ->
         recs1 <> [].
Proof.
  destruct (allocate_maximal rsu_data current_income target_bracket_limit)
    as (processed & recs1 & recs2 & Hp & Hrun & Hmax).
  exists processed, recs1, recs2. split; [exact Hp|]. split; [exact Hrun|].
  intros g Hg Hunits Hfits ->.
  destruct (Hmax g Hg Hunits) as [(rec & [] & _)|Hroom].
  simpl in Hroom. lra.
Qed.

(** The first loop passes over a grant that does not resolve. *)
Lemma grants_to_process_skips (pre post : list Grant) (grant : Grant) :
  get_tax_components get_stock_price get_fx_rate grant today = None ->
  process (pre ++ grant :: post) = process (pre ++ post).
Proof.
  intros Hnone. induction pre as [|g pre IH]; simpl.
  - now rewrite Hnone.
  - now rewrite IH.
Qed.

(** X22. A grant whose market data is missing is ignored: the optimizer
    returns the same table as for the input without that row, wherever the
    row stands. *)
Theorem unresolved_grant_is_ignored
    (pre post : list Grant) (grant : Grant)
    (current_income target_bracket_limit : Q) :
  get_tax_components get_stock_price get_fx_rate grant today = None ->
  run (pre ++ grant :: post) current_income target_bracket_limit
  = run (pre ++ post) current_income target_bracket_limit
  /\ optimize_rsu_sales get_stock_price get_fx_rate today
       (pre ++ grant :: post) current_income target_bracket_limit
     = optimize_rsu_sales get_stock_price get_fx_rate today
         (pre ++ post) current_income target_bracket_limit.
Proof.
  intros Hnone.
  assert (Hrun : run (pre ++ grant :: post) current_income target_bracket_limit
                 = run (pre ++ post) current_income target_bracket_limit).
  { unfold allocate. now rewrite (grants_to_process_skips pre post grant Hnone). }
  split; [exact Hrun|].
  unfold optimize_rsu_sales, sale_plan, recommendations. now rewrite Hrun.
Qed.

End PhaseReach.

(** ** Route and harvest *)

Section RouteFacts.

Variable get_stock_price : string -> date -> bool -> option Q.
Variable get_fx_rate : date -> option Q.
Variable today : date.

(** X17. When every grant is on the Capital Gains Route, as when the table
    has no route column and the caller fills it in, phase 2 recommends
    nothing: the route never yields a capital loss to harvest. *)
Theorem all_route_grants_no_loss_harvest
    (rsu_data : list Grant) (current_income target_bracket_limit : Q) :
  Forall (fun grant => section_102 grant = CAPITAL_GAINS_ROUTE) rsu_data ->
  phase2 get_stock_price get_fx_rate today
    rsu_data current_income target_bracket_limit = Ok [].
Proof.
  intros Hall.
  destruct (allocate_candidates get_stock_price get_fx_rate today rsu_data
              current_income target_bracket_limit)
    as (recs1 & recs2 & Hrun & Hin & _ & _ & H2 & _).
  unfold phase2. rewrite Hrun. simpl.
  destruct recs2 as [|rec rest]; [reflexivity|exfalso].
  apply Forall_cons in H2. destruct H2 as [(Hw & Hc & _) _].
  destruct (cap_loss_facts _ _ _ _ Hw Hc) as (Hroute & _).
  apply List.Forall_app in Hin. destruct Hin as [_ Hin].
  apply Forall_cons in Hin. destruct Hin as [Hin _].
  rewrite List.Forall_forall in Hall. apply Hroute. now apply Hall.
Qed.

End RouteFacts.

(** ** Column validation *)

Lemma has_column_In (columns : list string) (col : string) :
  has_column columns col = true <-> In col columns.
Proof.
  unfold has_column. rewrite existsb_exists. split.
  - intros (x & Hin & Heq). apply String.eqb_eq in Heq. now subst.
  - intros Hin. exists col. split; [exact Hin|apply String.eqb_refl].
Qed.

Lemma missing_columns_In (columns : list string) (col : string) :
  In col (missing_columns columns)
  <-> In col required_columns /\ ~ In col columns.
Proof.
  unfold missing_columns. rewrite filter_In, negb_true_iff.
  pose proof (has_column_In columns col) as H.
  destruct (has_column columns col).
  - split; [intros [_ E]; discriminate E|].
    intros [_ Hout]. exfalso. now apply Hout, H.
  - split; [|intros [Hreq _]; now split].
    intros [Hreq _]. split; [exact Hreq|]. intros Hin.
    apply H in Hin. discriminate Hin.
Qed.

(** X18. [validate_csv_data] reports no error exactly when the five
    required columns are all present, whatever other columns there are and
    in whatever order; otherwise it reports exactly one error, which lists
    the missing required columns, and only those, in the order of the
    required list. *)
Theorem validate_csv_data_reports_missing_columns (columns : list string) :
  (validate_csv_data columns = []
   <-> forall col, In col required_columns -> In col columns)
  /\ (validate_csv_data columns = []
      \/ exists missing,
           missing <> []
           /\ validate_csv_data columns
              = [("Missing required columns: "
                    ++ String.concat ", " missing)%string]
           /\ sublist missing required_columns
           /\ forall col, In col missing
                <-> In col required_columns /\ ~ In col columns).
Proof.
  unfold validate_csv_data.
  pose proof (missing_columns_In columns) as Hmiss.
  destruct (missing_columns columns) as [|m rest] eqn:E.
  - split; [|now left]. split; [|reflexivity]. intros _ col Hreq.
    destruct (in_dec string_dec col columns) as [Hin|Hout]; [exact Hin|].
    exfalso. now apply (Hmiss col).
  - split.
    + split; [discriminate|]. intros Hall. exfalso.
      destruct (proj1 (Hmiss m) (or_introl eq_refl)) as [Hreq Hout].
      now apply Hout, Hall.
    + right. exists (m :: rest). split; [discriminate|].
      split; [reflexivity|]. split; [|exact Hmiss].
      rewrite <- E. apply filter_sublist.
Qed.

(** ** The rate of the target bracket *)

(** Up to a bracket's limit the brackets above it play no part. *)
Lemma tax_on_income_from_cut
    (pre post post' : list bracket) (limit rate : Q) :
  forall income tax p : Q,
    income <= limit ->
    tax_on_income_from income (pre ++ (Fin limit, rate) :: post) tax (Fin p)
    = tax_on_income_from income (pre ++ (Fin limit, rate) :: post') tax (Fin p).
Proof.
  induction pre as [|[[l|] r] pre IH]; intros income tax p Hle; simpl.
  - destruct (Qltb p income); [|reflexivity].
    now rewrite !(tax_on_income_from_below _ income _ limit Hle).
  - destruct (Qltb p income); [|reflexivity]. now apply IH.
  - destruct (Qltb p income); [|reflexivity].
    now rewrite !tax_on_income_from_inf.
Qed.

Lemma limits_increasing_from_cut
    (pre post : list bracket) (limit rate : Q) :
  forall p : Q,
    limits_increasing_from p (pre ++ (Fin limit, rate) :: post) = true ->
    limits_increasing_from p (pre ++ [(Fin limit, rate); (PInf, rate)]) = true.
Proof.
  induction pre as [|[[l|] r] pre IH]; intros p; simpl.
  - intros H. apply andb_true_iff in H. destruct H as [-> _]. reflexivity.
  - intros H. apply andb_true_iff in H. destruct H as [-> H]. now apply IH.
  - destruct pre; discriminate.
Qed.

Lemma calc_progressive_tax_capped
    (pre post : list bracket) (limit rate base x : Q) :
  limits_increasing_from 0 (pre ++ (Fin limit, rate) :: post) = true ->
  rates_between 0 rate (pre ++ [(Fin limit, rate)]) = true ->
  0 <= x ->
  base + x <= limit ->
  calc_progressive_tax (pre ++ (Fin limit, rate) :: post) base x <= rate * x.
Proof.
  intros Hlim Hrates Hx Hle.
  assert (Hcut : calc_progressive_tax (pre ++ (Fin limit, rate) :: post) base x
                 = calc_progressive_tax
                     (pre ++ [(Fin limit, rate); (PInf, rate)]) base x).
  { unfold calc_progressive_tax, tax_on_income.
    destruct (Qle_bool x 0); [reflexivity|].
    rewrite (tax_on_income_from_cut pre post [(PInf, rate)] limit rate
               (base + x) 0 0 Hle).
    rewrite (tax_on_income_from_cut pre post [(PInf, rate)] limit rate
               base 0 0) by lra.
    reflexivity. }
  rewrite Hcut.
  assert (Hrates' : rates_between 0 rate
                      (pre ++ [(Fin limit, rate); (PInf, rate)]) = true).
  { unfold rates_between in *. rewrite forallb_app in *.
    apply andb_true_iff in Hrates. destruct Hrates as [H1 H2].
    rewrite H1. simpl in *. rewrite andb_true_r in H2. now rewrite H2. }
  destruct (calc_progressive_tax_range _ 0 rate base x
              (limits_increasing_from_cut pre post limit rate 0 Hlim)
              Hrates' (Qle_refl 0) Hx) as (_ & H & _).
  exact H.
Qed.


(** In a table with non-decreasing rates no bracket has a higher rate than
    a bracket above it. *)
Lemma brackets_ordered_rates_below
    (pre post : list bracket) (limit : xnum) (rate : Q) :
  brackets_ordered (pre ++ (limit, rate) :: post) = true ->
  rates_between 0 rate (pre ++ [(limit, rate)]) = true.
Proof.
  assert (Hrefl : Qle_bool rate rate = true) by (apply Qle_bool_iff; lra).
  induction pre as [|[l1 r1] pre IH]; intros H.
  - assert (Hr : rate_in_range rate = true).
    { simpl in H. destruct post as [|[? ?] ?].
      - apply andb_true_iff in H. now destruct H.
      - apply andb_true_iff in H. destruct H as [H _].
        apply andb_true_iff in H. destruct H as [H _].
        apply andb_true_iff in H. now destruct H. }
    unfold rate_in_range in Hr. apply andb_true_iff in Hr.
    destruct Hr as [Hr _]. simpl. now rewrite Hr, Hrefl.
  - change ((((l1, r1) :: pre) ++ (limit, rate) :: post))
      with ((l1, r1) :: (pre ++ (limit, rate) :: post)) in H.
    assert (Hhead : exists l2 r2 tail tail',
              pre ++ (limit, rate) :: post = (l2, r2) :: tail
              /\ pre ++ [(limit, rate)] = (l2, r2) :: tail').
    { destruct pre as [|[l2 r2] pre']; simpl; eauto 10. }
    destruct Hhead as (l2 & r2 & tail & tail' & E & E').
    rewrite E in H.
    assert (Hstep : brackets_ordered ((l1, r1) :: (l2, r2) :: tail)
                    = rate_in_range r1 && xltb l1 l2 && Qle_bool r1 r2
                      && brackets_ordered ((l2, r2) :: tail)) by reflexivity.
    rewrite Hstep in H. clear Hstep. rewrite <- E in H.
    apply andb_true_iff in H. destruct H as [H Hord].
    apply andb_true_iff in H. destruct H as [H Hr12].
    apply andb_true_iff in H. destruct H as [Hr1 _].
    specialize (IH Hord). simpl. rewrite IH, andb_true_r.
    rewrite E' in IH. simpl in IH.
    apply andb_true_iff in IH. destruct IH as [IH _].
    apply andb_true_iff in IH. destruct IH as [_ Hr2].
    unfold rate_in_range in Hr1. apply andb_true_iff in Hr1.
    destruct Hr1 as [Hr1 _]. rewrite Hr1. simpl.
    apply Qle_bool_iff in Hr12, Hr2. apply Qle_bool_iff. lra.
Qed.

Section TargetRate.

Variable get_stock_price : string -> date -> bool -> option Q.
Variable get_fx_rate : date -> option Q.
Variable today : date.


End TargetRate.

(** ** The further properties at the scenarios of the tests *)

Lemma off_route_is_capital_from_vesting_witness :
  exists c,
    get_tax_components vest_price vest_fx
      (test_grant "Not Capital Gains Route") test_today = Some c
    /\ ordinary_per_share c = 0
    /\ capital_per_share c = 150 * 3.8 - 100 * 3.6
    /\ sale_price_nis c = 150 * 3.8
    /\ grant_price_nis c = 50 * 3.5
    /\ note c = NOTE_NON_102
    /\ (150 * 3.8 < 100 * 3.6 -> capital_per_share c < 0).
Proof.
  apply (off_route_is_capital_from_vesting vest_price vest_fx
           (test_grant "Not Capital Gains Route") test_today
           150 3.8 50 3.5 100 3.6).
  - intros H. discriminate H.
  - available_here.
  - available_here.
  - available_here.
  - available_here.
  - available_here.
  - available_here.
Defined.


Lemma note_prefix_tells_route_witness :
  String.prefix "§102" NOTE_CAPITAL_GAINS = true
  <-> section_102 (test_grant "Capital Gains Route") = CAPITAL_GAINS_ROUTE.
Proof.
  apply (note_prefix_tells_route gain_price gain_fx
           (test_grant "Capital Gains Route") test_today
           (mkComponents (50 * 3.5) (150 * 3.8 - 50 * 3.5) (150 * 3.8)
              (50 * 3.5) 150 50 NOTE_CAPITAL_GAINS)).
  reflexivity.
Defined.

Lemma second_anniversary_qualifies_witness :
  exists c,
    get_tax_components gain_price gain_fx
      (test_grant "Capital Gains Route") (mkDate 2024 1 1) = Some c
    /\ ordinary_per_share c = py_min (50 * 3.5) (150 * 3.8)
    /\ capital_per_share c = py_max 0 (150 * 3.8 - 50 * 3.5)
    /\ note c <> NOTE_DISQUALIFIED.
Proof.
  apply (second_anniversary_qualifies gain_price gain_fx
           (test_grant "Capital Gains Route") 1 150 3.8 50 3.5).
  - reflexivity.
  - simpl. lia.
  - available_here.
  - available_here.
  - available_here.
  - available_here.
Defined.


Lemma no_route_grant_no_recommendation_witness :
  allocate vest_price vest_fx test_today
    [test_grant "Not Capital Gains Route"] 100000 269280 = Ok ([], [])
  /\ optimize_rsu_sales vest_price vest_fx test_today
       [test_grant "Not Capital Gains Route"] 100000 269280 = Ok [].
Proof.
  apply (no_route_grant_no_recommendation vest_price vest_fx test_today
           [test_grant "Not Capital Gains Route"] 100000 269280).
  constructor; [|constructor]. intros H. discriminate H.
Defined.

Lemma all_route_grants_no_loss_harvest_witness :
  phase2 gain_price gain_fx test_today
    [test_grant "Capital Gains Route"] 100000 269280 = Ok [].
Proof.
  apply (all_route_grants_no_loss_harvest gain_price gain_fx test_today
           [test_grant "Capital Gains Route"] 100000 269280).
  constructor; [reflexivity|constructor].
Defined.



Lemma unresolved_grant_is_ignored_witness :
  allocate gain_price gain_fx test_today
    ([test_grant "Capital Gains Route"] ++ unpriced_grant :: [])
    100000 269280
  = allocate gain_price gain_fx test_today
      ([test_grant "Capital Gains Route"] ++ []) 100000 269280
  /\ optimize_rsu_sales gain_price gain_fx test_today
       ([test_grant "Capital Gains Route"] ++ unpriced_grant :: [])
       100000 269280
     = optimize_rsu_sales gain_price gain_fx test_today
         ([test_grant "Capital Gains Route"] ++ []) 100000 269280.
Proof.
  apply (unresolved_grant_is_ignored gain_price gain_fx test_today
           [test_grant "Capital Gains Route"] [] unpriced_grant
           100000 269280).
  reflexivity.
Defined.

(** * Where binary64 leaves exact arithmetic

    Replays of the program's arithmetic on binary64 floats.  They show
    the equalities and tight bounds of exact arithmetic failing in the
    last digits, and the bounds stated above for the program, with a
    share or the allowance for rounding to spare, holding at the same
    inputs. *)

Section Binary64Replays.

Import PrimFloat.
Import Binary64.
Local Open Scope float_scope.


(** At the same input the two sides are within the allowance for rounding
    of each other. *)
Example calc_progressive_tax_nearly_additive_in_binary64 :
  (abs (calc_progressive_tax ISRAELI_TAX_BRACKETS_2025 90000 (175000 + 300000)
        - (calc_progressive_tax ISRAELI_TAX_BRACKETS_2025 90000 175000
           + calc_progressive_tax ISRAELI_TAX_BRACKETS_2025
               (90000 + 175000) 300000))
   <=? rounding_slack (90000 + 175000 + 300000)) = true.
Proof.
  vm_compute. reflexivity.
Qed.

(** The rate bounds of exact arithmetic are missed in the last digits: a
    slice taxed at 10% below [0.10 * x], a slice inside the 20% bracket
    off [0.20 * x] on either side; each within the allowance. *)
Example calc_progressive_tax_rates_in_binary64 :
  calc_progressive_tax ISRAELI_TAX_BRACKETS_2025 60412 21933
  = 2193.2999999999993
  /\ (calc_progressive_tax ISRAELI_TAX_BRACKETS_2025 60412 21933
      <? 0.10 * 21933) = true
  /\ (0.10 * 21933
      <=? calc_progressive_tax ISRAELI_TAX_BRACKETS_2025 60412 21933
          + rounding_slack (60412 + 21933)) = true
  /\ calc_progressive_tax ISRAELI_TAX_BRACKETS_2025 130787 21611
     = 4322.199999999999
  /\ (calc_progressive_tax ISRAELI_TAX_BRACKETS_2025 130787 21611
      <? 0.20 * 21611) = true
  /\ (0.20 * 21611
      <=? calc_progressive_tax ISRAELI_TAX_BRACKETS_2025 130787 21611
          + rounding_slack (130787 + 21611)) = true
  /\ calc_progressive_tax ISRAELI_TAX_BRACKETS_2025 139146 4641
     = 928.2000000000007
  /\ (0.20 * 4641
      <? calc_progressive_tax ISRAELI_TAX_BRACKETS_2025 139146 4641) = true
  /\ (calc_progressive_tax ISRAELI_TAX_BRACKETS_2025 139146 4641
      <=? 0.20 * 4641 + rounding_slack (139146 + 4641)) = true.
Proof.
  vm_compute. repeat split; reflexivity.
Qed.

(** On the route the two components need not add up to the sale value:
    a sale at 130.44 USD and the rate 3.5724 of a grant made at 54.56 USD
    and 3.7825.  The comparisons hold. *)
Example route_components_in_binary64 :
  let c := route_components false 130.44 3.5724 54.56 3.7825 in
  sale_price_nis c = 465.983856
  /\ ordinary_per_share c + capital_per_share c = 465.98385599999995
  /\ (0 <=? capital_per_share c) = true
  /\ (ordinary_per_share c <=? sale_price_nis c) = true
  /\ ordinary_per_share c = 54.56 * 3.7825
  /\ capital_per_share c = 130.44 * 3.5724 - 54.56 * 3.7825.
Proof.
  vm_compute. repeat split; reflexivity.
Qed.

(** Phase 1 can pass the ceiling in the last digits: a grant worth 85.9 USD
    at the rate 3.36, no income and the ceiling 721560.  The quotient
    rounds to 2500, 2500 units are sold and the running income ends at
    721560.0000000001, above the ceiling and far less than one share
    above it. *)
Example phase1_past_the_ceiling_in_binary64 :
  exists a,
    allocate [flat_grant 85.9 3.36 5000] 0 721560 = Ok a
    /\ units_sold (gain_recs a) = [2500%Z]
    /\ running_income a = 721560.0000000001
    /\ (721560 <? running_income a) = true
    /\ (running_income a <=? 721560 + 85.9 * 3.36) = true
    /\ (721560 - 0 <=? of_int (2500 + 1) * (85.9 * 3.36)) = true.
Proof.
  eexists. split; [vm_compute; reflexivity|].
  vm_compute. repeat split; reflexivity.
Qed.

(** Phase 1 can leave room for one more share in the last digits: a grant
    worth 1.60 USD at the rate 3.5, income 100000 and the ceiling 120720.
    3699 units are sold and the room left, 5.600000000005821, is not below
    the 5.6000000000000005 of a share; it is within the allowance. *)
Example phase1_leaves_a_share_in_binary64 :
  exists a,
    allocate [flat_grant 1.60 3.5 5000] 100000 120720 = Ok a
    /\ units_sold (gain_recs a) = [3699%Z]
    /\ 120720 - running_income a = 5.600000000005821
    /\ (1.60 * 3.5 <=? 120720 - running_income a) = true
    /\ (120720 - running_income a
        <? 1.60 * 3.5 + rounding_slack (100000 + 120720)) = true
    /\ (120720 - 100000 <=? of_int (3699 + 1) * (1.60 * 3.5)) = true.
Proof.
  eexists. split; [vm_compute; reflexivity|].
  vm_compute. repeat split; reflexivity.
Qed.


(** At the same input the cumulative loss is within the allowance for
    rounding of the gain to offset plus one share's loss. *)
Example loss_harvest_nearly_within_a_share_in_binary64 :
  exists a,
    allocate [mirrored_gain 98; mirrored_loss 14; mirrored_loss 98] 0 84120
    = Ok a
    /\ (running_loss_sold a
        <=? total_cap_gain_to_offset a + abs (275.69 * 3.09 - 350.33 * 3.09)
            + rounding_slack
                (total_cap_gain_to_offset a
                 + abs (275.69 * 3.09 - 350.33 * 3.09))) = true.
Proof.
  eexists. split; [vm_compute; reflexivity|].
  vm_compute. reflexivity.
Qed.

(** Loss harvesting can stop short of the target in the last digits, with
    units left: a gain of [0.2 * 3.8 - 0.1 * 3.8] a share on 10 units
    against a grant of 10 units that loses twice as much a share.  5 units
    are sold and the cumulative loss, 3.7999999999999994, stays below the
    gain to offset; it is within the allowance. *)
Example loss_harvest_stops_short_in_binary64 :
  exists a,
    allocate [ mkGrant (route_components false 0.2 3.8 0.1 3.8) 10;
               mkGrant (off_route_components 0.1 3.8 0.3 3.8) 10 ] 0 84120
    = Ok a
    /\ units_sold (gain_recs a) = [10%Z]
    /\ units_sold (loss_recs a) = [5%Z]
    /\ running_loss_sold a = 3.7999999999999994
    /\ (running_loss_sold a <? total_cap_gain_to_offset a) = true
    /\ (total_cap_gain_to_offset a
        <=? running_loss_sold a
            + rounding_slack (total_cap_gain_to_offset a)) = true.
Proof.
  eexists. split; [vm_compute; reflexivity|].
  vm_compute. repeat split; reflexivity.
Qed.

(** The tax of a row can pass half of the proceeds in the last digits: an
    underwater grant worth 321.34 USD at 3.1807, granted at 319.26 USD and
    4.0417, sold from the income 800000 under the ceiling 900000, all in
    the 50% bracket.  The tax stays below the proceeds. *)
Example tax_past_half_of_proceeds_in_binary64 :
  exists b,
    sale_plan [mkGrant (route_components false 321.34 3.1807 319.26 4.0417) 100]
      800000 900000 = Ok [b]
    /\ b_units b = 97%Z
    /\ 2 * total_tax b = 99142.35538600001
    /\ gross b = 99142.355386
    /\ (gross b <? 2 * total_tax b) = true
    /\ (0 <=? total_tax b) = true
    /\ (total_tax b <=? gross b) = true
    /\ (0 <=? net_proceeds b) = true.
Proof.
  eexists. split; [vm_compute; reflexivity|].
  vm_compute. repeat split; reflexivity.
Qed.

End Binary64Replays.
